(** * Range resolution of the job-analytics dashboard

    A shallow embedding of [lib/api.ts] (both revisions kept in the
    repository) and of the derivations and handlers of [app/page.tsx],
    together with the properties of the range resolver, the week-range
    utility, the week comparison and the custom-range state machine.

    Conventions.
    - A JavaScript [number] that holds a count or a time value is a [Z].
    - [Record<string, number>] is a finite map [gmap string Z].
    - An optional field ([topPerformers?]) is an [option].
    - A nullable dataset ([WeeklyData | null]) is an [option].
    - A [Date] is its time value, [None] standing for the invalid date
      ([NaN]).  The host time zone is a parameter, as in ECMA-262.
    - A call that can throw returns a [Completion]. *)

From stdpp Require Import gmap strings list.
From Stdlib Require Import ZArith Lia String Ascii DecimalString Sorted.

Open Scope Z_scope.

(* ------------------------------------------------------------------ *)
(** * Exceptions                                                        *)
(* ------------------------------------------------------------------ *)

Inductive JSError : Type :=
| RangeError (msg : string)
| Error (msg : string)
| TypeError (msg : string)
| SyntaxError (msg : string)
| TransportError (reason : string).

Inductive Completion (A : Type) : Type :=
| Normal (a : A)
| Throw (e : JSError).

Arguments Normal {A} a.
Arguments Throw {A} e.

Definition cbind {A B} (c : Completion A) (k : A -> Completion B) : Completion B :=
  match c with
  | Normal a => k a
  | Throw e => Throw e
  end.

Notation "'try!' x <- c ; k" := (cbind c (fun x => k))
  (at level 10, x name, c at level 100, k at level 200).

(* ------------------------------------------------------------------ *)
(** * The [Date] object (ECMA-262, section "Date Objects")              *)
(* ------------------------------------------------------------------ *)

Module JSDate.

Definition msPerDay : Z := 86400000.
Definition msPerHour : Z := 3600000.
Definition msPerMinute : Z := 60000.
Definition msPerSecond : Z := 1000.

(** Largest magnitude of a time value: 8.64e15 ms. *)
Definition maxTime : Z := 8640000000000000.

Definition Day (t : Z) : Z := t / msPerDay.
Definition TimeWithinDay (t : Z) : Z := t mod msPerDay.

Definition isLeap (y : Z) : bool :=
  ((y mod 4 =? 0) && negb (y mod 100 =? 0)) || (y mod 400 =? 0).

Definition DaysInYear (y : Z) : Z := if isLeap y then 366 else 365.

Definition DayFromYear (y : Z) : Z :=
  365 * (y - 1970) + (y - 1969) / 4 - (y - 1901) / 100 + (y - 1601) / 400.

Definition TimeFromYear (y : Z) : Z := msPerDay * DayFromYear y.

(** The largest [y] with [TimeFromYear y <= t]: one estimate from the
    mean length of a Gregorian year, moved by at most one year. *)
Definition YearFromDay (d : Z) : Z :=
  let y0 := 1970 + (d * 400) / 146097 in
  if d <? DayFromYear y0 then y0 - 1
  else if DayFromYear (y0 + 1) <=? d then y0 + 1
  else y0.

Definition YearFromTime (t : Z) : Z := YearFromDay (Day t).

Definition InLeapYear (t : Z) : Z :=
  if isLeap (YearFromTime t) then 1 else 0.

Definition DayWithinYear (t : Z) : Z := Day t - DayFromYear (YearFromTime t).

(** Day number within the year on which month [m] (0 = January) starts. *)
Definition monthStart (m : Z) (leap : Z) : Z :=
  match m with
  | 0 => 0
  | 1 => 31
  | 2 => 59 + leap
  | 3 => 90 + leap
  | 4 => 120 + leap
  | 5 => 151 + leap
  | 6 => 181 + leap
  | 7 => 212 + leap
  | 8 => 243 + leap
  | 9 => 273 + leap
  | 10 => 304 + leap
  | _ => 334 + leap
  end.

Definition monthOfDay (d : Z) (leap : Z) : Z :=
  if d <? 31 then 0
  else if d <? 59 + leap then 1
  else if d <? 90 + leap then 2
  else if d <? 120 + leap then 3
  else if d <? 151 + leap then 4
  else if d <? 181 + leap then 5
  else if d <? 212 + leap then 6
  else if d <? 243 + leap then 7
  else if d <? 273 + leap then 8
  else if d <? 304 + leap then 9
  else if d <? 334 + leap then 10
  else 11.

Definition MonthFromTime (t : Z) : Z := monthOfDay (DayWithinYear t) (InLeapYear t).

Definition DateFromTime (t : Z) : Z :=
  DayWithinYear t - monthStart (MonthFromTime t) (InLeapYear t) + 1.

Definition HourFromTime (t : Z) : Z := (t / msPerHour) mod 24.
Definition MinFromTime (t : Z) : Z := (t / msPerMinute) mod 60.
Definition SecFromTime (t : Z) : Z := (t / msPerSecond) mod 60.
Definition msFromTime (t : Z) : Z := t mod msPerSecond.

(** [MakeDay year month date]: the day number of the first of the month,
    moved by [date - 1] days; months outside 0..11 carry into the year. *)
Definition MakeDay (year month date : Z) : Z :=
  let ym := year + month / 12 in
  let mn := month mod 12 in
  DayFromYear ym + monthStart mn (if isLeap ym then 1 else 0) + date - 1.

Definition MakeDate (day time : Z) : Z := day * msPerDay + time.

Definition TimeClip (t : Z) : option Z :=
  if maxTime <? Z.abs t then None else Some t.

(** A [Date] object: its time value, or [None] for the invalid date. *)
Definition Date : Type := option Z.

Section HostTimeZone.

(** [LocalTZA t isUTC]: the offset of local time from UTC in
    milliseconds, at UTC time [t] when [isUTC], at local time [t]
    otherwise. *)
Variable LocalTZA : Z -> bool -> Z.

Definition LocalTime (t : Z) : Z := t + LocalTZA t true.
Definition UTC (t : Z) : Z := t - LocalTZA t false.

(** [date.getDate()]: the day of the month in local time; [None] is [NaN]. *)
Definition getDate (d : Date) : option Z :=
  match d with
  | None => None
  | Some t => Some (DateFromTime (LocalTime t))
  end.

(** [date.getFullYear()] and [date.getMonth()], in local time. *)
Definition getFullYear (d : Date) : option Z :=
  match d with
  | None => None
  | Some t => Some (YearFromTime (LocalTime t))
  end.

Definition getMonth (d : Date) : option Z :=
  match d with
  | None => None
  | Some t => Some (MonthFromTime (LocalTime t))
  end.

(** [date.setDate(dt)]: the new time value of the object. *)
Definition setDate (d : Date) (dt : option Z) : Date :=
  match d, dt with
  | Some t, Some n =>
      let t' := LocalTime t in
      let newDate :=
        MakeDate (MakeDay (YearFromTime t') (MonthFromTime t') n) (TimeWithinDay t') in
      TimeClip (UTC newDate)
  | _, _ => None
  end.

End HostTimeZone.

(** JavaScript [a - b] on numbers, with [NaN] absorbing. *)
Definition numSub (a : option Z) (b : Z) : option Z :=
  match a with
  | Some x => Some (x - b)
  | None => None
  end.

Definition digitChar (v : Z) : ascii := ascii_of_nat (48 + Z.to_nat (v mod 10)).

Fixpoint padDigits (n : nat) (v : Z) (acc : string) : string :=
  match n with
  | O => acc
  | S k => padDigits k (v / 10) (String (digitChar v) acc)
  end.

(** Decimal rendering of [v >= 0] on exactly [n] digits. *)
Definition pad (n : nat) (v : Z) : string := padDigits n v "".

(** The year of an ISO date-time: four digits for 0..9999, otherwise a
    sign and six digits. *)
Definition isoYear (y : Z) : string :=
  if (0 <=? y) && (y <=? 9999) then pad 4 y
  else if y <? 0 then "-" +:+ pad 6 (- y)
  else "+" +:+ pad 6 y.

Definition isoString (t : Z) : string :=
  isoYear (YearFromTime t) +:+ "-" +:+ pad 2 (MonthFromTime t + 1) +:+ "-" +:+
  pad 2 (DateFromTime t) +:+ "T" +:+ pad 2 (HourFromTime t) +:+ ":" +:+
  pad 2 (MinFromTime t) +:+ ":" +:+ pad 2 (SecFromTime t) +:+ "." +:+
  pad 3 (msFromTime t) +:+ "Z".

(** [date.toISOString()]: always in UTC; throws on the invalid date. *)
Definition toISOString (d : Date) : Completion string :=
  match d with
  | None => Throw (RangeError "Invalid time value")
  | Some t => Normal (isoString t)
  end.

(** [s.slice(0, 10)]. *)
Definition slice_0_10 (s : string) : string := substring 0 10 s.

End JSDate.

(* ------------------------------------------------------------------ *)
(** * Types of [lib/api.ts]                                             *)
(* ------------------------------------------------------------------ *)

Module TopPerformer.
Record t : Type := mk {
  shortCode : string;
  clicks : Z;
  jobTitle : string;
  location : string;
  originalUrl : string
}.
End TopPerformer.

(** [{ clicks: number; uniqueUrls: number }], the shape of
    [summary.today] and [summary.yesterday]. *)
Module Totals.
Record t : Type := mk {
  clicks : Z;
  uniqueUrls : Z
}.
End Totals.

Module ThisWeek.
Record t : Type := mk {
  clicks : Z;
  uniqueUrls : Z;
  topPerformers : option (list TopPerformer.t)
}.
End ThisWeek.

Module ThisMonth.
Record t : Type := mk {
  clicks : Z;
  uniqueUrls : Z;
  topPerformers : option (list TopPerformer.t);
  locationBreakdown : option (gmap string Z);
  jobTitleBreakdown : option (gmap string Z)
}.
End ThisMonth.

Module SummaryData.
Record t : Type := mk {
  today : Totals.t;
  yesterday : Totals.t;
  thisWeek : ThisWeek.t;
  thisMonth : ThisMonth.t
}.
End SummaryData.

Module DailyBreakdown.
Record t : Type := mk {
  date : string;
  totalClicks : Z;
  uniqueUrls : Z;
  topShortCodes : list TopPerformer.t;
  locationBreakdown : gmap string Z;
  jobTitleBreakdown : gmap string Z
}.
End DailyBreakdown.

(** The [data] of a weekly, monthly or range response. *)
Module WeeklyData.
Record t : Type := mk {
  totalClicks : Z;
  uniqueUrls : Z;
  dailyBreakdown : list DailyBreakdown.t;
  topPerformers : list TopPerformer.t;
  locationBreakdown : gmap string Z;
  jobTitleBreakdown : gmap string Z
}.
End WeeklyData.

(** [MonthlyData] and [RangeData] are the same type. *)
Abbreviation MonthlyData := WeeklyData.t.
Abbreviation RangeData := WeeklyData.t.

(** The [{ success, data }] envelope shared by the four responses. *)
Module Response.
Record t (A : Type) : Type := mk {
  success : bool;
  data : A
}.
Arguments mk {A} _ _.
Arguments success {A} _.
Arguments data {A} _.
End Response.

Abbreviation SummaryResponse := (Response.t SummaryData.t).
Abbreviation WeeklyResponse := (Response.t WeeklyData.t).
Abbreviation MonthlyResponse := (Response.t WeeklyData.t).
Abbreviation RangeResponse := (Response.t WeeklyData.t).

Inductive TimeRange : Type := today | yesterday | thisWeek | thisMonth.

(** A point of the trend series, [{ date, totalClicks }]. *)
Module TrendPoint.
Record t : Type := mk {
  date : string;
  totalClicks : Z
}.
End TrendPoint.

(** The object returned by [getBreakdownsForRange]. *)
Module Breakdowns.
Record t : Type := mk {
  locationBreakdown : gmap string Z;
  jobTitleBreakdown : gmap string Z;
  topPerformers : list TopPerformer.t;
  trendData : list TrendPoint.t
}.
End Breakdowns.

(** The object returned by [getSummaryForRange]: one of the entries of
    the summary, returned as it is. *)
Inductive RangeSummary : Type :=
| OfDay (d : Totals.t)
| OfWeek (w : ThisWeek.t)
| OfMonth (m : ThisMonth.t).

(** [d => ({ date: d.date, totalClicks: d.totalClicks })]. *)
Definition toTrendPoint (d : DailyBreakdown.t) : TrendPoint.t :=
  TrendPoint.mk (DailyBreakdown.date d) (DailyBreakdown.totalClicks d).

(** The reading of the wall clock by the two [new Date()] of the
    drill-down, and the time zone of the host. *)
Module Host.
Record t : Type := mk {
  LocalTZA : Z -> bool -> Z;
  clockToday : Z;
  clockYesterday : Z
}.
End Host.

(** [new Date()]: the current time is a time value. *)
Definition newDate (clock : Z) : JSDate.Date := JSDate.TimeClip clock.

(** The [targetDate] of the drill-down:
    [[
      const today = new Date();
      const yesterday = new Date();
      yesterday.setDate(today.getDate() - 1);
      const targetDate = range === "today"
          ? today.toISOString().slice(0, 10)
          : yesterday.toISOString().slice(0, 10);
    ]] *)
Definition targetDate (h : Host.t) (range : TimeRange) : Completion string :=
  let today_ := newDate (Host.clockToday h) in
  let yesterday_ := newDate (Host.clockYesterday h) in
  let yesterday_ :=
    JSDate.setDate (Host.LocalTZA h) yesterday_
      (JSDate.numSub (JSDate.getDate (Host.LocalTZA h) today_) 1) in
  match range with
  | today => try! s <- JSDate.toISOString today_; Normal (JSDate.slice_0_10 s)
  | _ => try! s <- JSDate.toISOString yesterday_; Normal (JSDate.slice_0_10 s)
  end.

(** JavaScript [a > b] on strings: the order of the code units, which
    for the ASCII text of a date input is the order of the bytes. *)
Definition gtString (a b : string) : bool := String.ltb b a.

(** JavaScript [!s] on a string: only the empty string is falsy. *)
Definition notString (s : string) : bool := String.eqb s "".

(** JavaScript truthiness of a nullable object or an optional array:
    only [null] and [undefined] are falsy, the empty array is truthy. *)
Definition truthy {A} (o : option A) : bool :=
  match o with
  | Some _ => true
  | None => false
  end.

(** Assignment to the local [topPerformers]. *)
Definition setTopPerformers (tp : list TopPerformer.t) (b : Breakdowns.t) : Breakdowns.t :=
  Breakdowns.mk (Breakdowns.locationBreakdown b) (Breakdowns.jobTitleBreakdown b)
                tp (Breakdowns.trendData b).

(** The three assignments of the drill-down into one day. *)
Definition setDay (day : DailyBreakdown.t) (b : Breakdowns.t) : Breakdowns.t :=
  Breakdowns.mk (DailyBreakdown.locationBreakdown day)
                (DailyBreakdown.jobTitleBreakdown day)
                (DailyBreakdown.topShortCodes day)
                (Breakdowns.trendData b).

(** The four assignments from a weekly or monthly rollup. *)
Definition ofRollup (r : WeeklyData.t) : Breakdowns.t :=
  Breakdowns.mk (WeeklyData.locationBreakdown r)
                (WeeklyData.jobTitleBreakdown r)
                (WeeklyData.topPerformers r)
                (map toTrendPoint (WeeklyData.dailyBreakdown r)).

(** [w.dailyBreakdown.find((d) => d.date === targetDate)]. *)
Definition findDay (target : string) (days : list DailyBreakdown.t)
  : option DailyBreakdown.t :=
  find (fun d => String.eqb (DailyBreakdown.date d) target) days.

(* ------------------------------------------------------------------ *)
(** * The network, and the fetch helpers of [lib/api.ts]                *)
(* ------------------------------------------------------------------ *)

(** The four queries, standing for the URLs built from [API_BASE_URL]. *)
Inductive Request : Type :=
| GetSummary
| GetWeekly
| GetMonthly (year month : string)
| GetRange (startDate endDate : string).

(** What [res.json()] finds in the body. *)
Inductive Body (A : Type) : Type :=
| NotJson
| JsonNull
| Json (r : Response.t A).

Arguments NotJson {A}.
Arguments JsonNull {A}.
Arguments Json {A} r.

(** What [fetch(url)] settles to: a rejection, or a response with its
    [ok] flag, its [status] and its body. *)
Inductive FetchResult (A : Type) : Type :=
| NetworkFailure (reason : string)
| HttpResponse (ok : bool) (status : Z) (body : Body A).

Arguments NetworkFailure {A} reason.
Arguments HttpResponse {A} ok status body.

(** The remote service as the session sees it. *)
Module Network.
Record t : Type := mk {
  summary : FetchResult SummaryData.t;
  weekly : FetchResult WeeklyData.t;
  monthly : string -> string -> FetchResult WeeklyData.t;
  range : string -> string -> FetchResult WeeklyData.t
}.
End Network.

(** An asynchronous computation: it threads the list of the requests
    issued so far and settles to a completion. *)
Definition Async (A : Type) : Type := list Request -> Completion A * list Request.

Definition abind {A B} (m : Async A) (k : A -> Async B) : Async B :=
  fun log =>
    match m log with
    | (Normal a, log') => k a log'
    | (Throw e, log') => (Throw e, log')
    end.

Notation "'await!' x <- c ; k" := (abind c (fun x => k))
  (at level 10, x name, c at level 100, k at level 200).

(** Issue a request: it is appended to the log. *)
Definition issue (r : Request) : Async unit := fun log => (Normal tt, (log ++ [r])%list).

Definition ofCompletion {A} (c : Completion A) : Async A := fun log => (c, log).

(** [res.json()]: rejects when the body is not JSON; [None] is [null]. *)
Definition json {A} (b : Body A) : Completion (option (Response.t A)) :=
  match b with
  | NotJson => Throw (SyntaxError "Unexpected token in JSON")
  | JsonNull => Normal None
  | Json r => Normal (Some r)
  end.

(** [String(n)] for an integer [n]; [None] is [NaN]. *)
Definition showZ (z : Z) : string := NilZero.string_of_int (Z.to_int z).

Definition showNumber (n : option Z) : string :=
  match n with
  | Some z => showZ z
  | None => "NaN"
  end.

(** [fetchJson]: the answer [r] of the network to the request. *)
Definition fetchJson {A} (r : FetchResult A) : Completion (option (Response.t A)) :=
  match r with
  | NetworkFailure reason => Throw (TransportError reason)
  | HttpResponse ok status body =>
      if negb ok then Throw (Error ("Request failed: " +:+ showZ status))
      else json body
  end.

Definition fetchRange (net : Network.t) (startDate endDate : string)
  : Async (option (Response.t WeeklyData.t)) :=
  await! _ <- issue (GetRange startDate endDate);
  ofCompletion (fetchJson (Network.range net startDate endDate)).

(** [r.success] on a value that may be [null]. *)
Definition successOf {A} (r : option (Response.t A)) : Completion bool :=
  match r with
  | Some r => Normal (Response.success r)
  | None => Throw (TypeError "Cannot read properties of null")
  end.

(** [Promise.all] of two promises already settled to [a] and [b]: it
    rejects with the reason of the promise that rejects first;
    [firstWins] tells that the first is not later than the second. *)
Definition promiseAll2 {A B} (firstWins : bool) (a : Completion A) (b : Completion B)
  : Completion (A * B) :=
  match a, b with
  | Normal x, Normal y => Normal (x, y)
  | Throw e, Normal _ => Throw e
  | Normal _, Throw e => Throw e
  | Throw e1, Throw e2 => Throw (if firstWins then e1 else e2)
  end.

(* ------------------------------------------------------------------ *)
(** * [lib/api.ts]: the resolver over response data                     *)
(* ------------------------------------------------------------------ *)

Module Api.

Definition getSummaryForRange (summary : option SummaryData.t) (range : TimeRange)
  : RangeSummary :=
  match summary with
  | None => OfDay (Totals.mk 0 0)
  | Some summary =>
      match range with
      | today => OfDay (SummaryData.today summary)
      | yesterday => OfDay (SummaryData.yesterday summary)
      | thisWeek => OfWeek (SummaryData.thisWeek summary)
      | thisMonth => OfMonth (SummaryData.thisMonth summary)
      end
  end.

Definition getBreakdownsForRange (h : Host.t)
    (weekly monthly : option WeeklyData.t) (summary : option SummaryData.t)
    (range : TimeRange) : Completion Breakdowns.t :=
  (* Default empty state *)
  let empty := Breakdowns.mk ∅ ∅ [] [] in
  try! b <-
    match range, monthly with
    | thisMonth, Some m =>
        (* Monthly range: use monthly endpoint if available *)
        Normal (ofRollup m)
    | _, _ =>
        match weekly with
        | Some w =>
            (* Default / weekly-based (today, yesterday, thisWeek) *)
            let b := ofRollup w in
            match range with
            | today | yesterday =>
                (* Today / Yesterday: drill into daily breakdown *)
                try! target <- targetDate h range;
                match findDay target (WeeklyData.dailyBreakdown w) with
                | Some day => Normal (setDay day b)
                | None => Normal b
                end
            | _ => Normal b
            end
        | None => Normal empty
        end
    end;
  (* Prefer summary's dedicated topPerformers if present *)
  match summary with
  | Some summary =>
      let b :=
        match range, ThisWeek.topPerformers (SummaryData.thisWeek summary) with
        | thisWeek, Some tp => setTopPerformers tp b
        | _, _ => b
        end in
      let b :=
        match range, ThisMonth.topPerformers (SummaryData.thisMonth summary) with
        | thisMonth, Some tp => setTopPerformers tp b
        | _, _ => b
        end in
      Normal b
  | None => Normal b
  end.

End Api.

(* ------------------------------------------------------------------ *)
(** * The earlier [lib/api.ts]: the resolver over whole responses       *)
(* ------------------------------------------------------------------ *)

Module ApiV0.

Definition getSummaryForRange (summary : option (Response.t SummaryData.t))
    (range : TimeRange) : RangeSummary :=
  match summary with
  | None => OfDay (Totals.mk 0 0)
  | Some summary =>
      let d := Response.data summary in
      match range with
      | today => OfDay (SummaryData.today d)
      | yesterday => OfDay (SummaryData.yesterday d)
      | thisWeek => OfWeek (SummaryData.thisWeek d)
      | thisMonth => OfMonth (SummaryData.thisMonth d)
      end
  end.

(** [!!r && r.success], keeping [r.data] when it holds. *)
Definition has (r : option (Response.t WeeklyData.t)) : option WeeklyData.t :=
  match r with
  | Some r => if Response.success r then Some (Response.data r) else None
  | None => None
  end.

Definition getBreakdownsForRange (h : Host.t)
    (weekly monthly : option (Response.t WeeklyData.t))
    (summary : option (Response.t SummaryData.t))
    (range : TimeRange) : Completion Breakdowns.t :=
  let empty := Breakdowns.mk ∅ ∅ [] [] in
  let hasWeekly := has weekly in
  let hasMonthly := has monthly in
  try! b <-
    match range, hasMonthly with
    | thisMonth, Some m => Normal (ofRollup m)
    | _, _ =>
        match hasWeekly with
        | Some w =>
            let b := ofRollup w in
            match range with
            | today | yesterday =>
                try! target <- targetDate h range;
                match findDay target (WeeklyData.dailyBreakdown w) with
                | Some day => Normal (setDay day b)
                | None => Normal b
                end
            | _ => Normal b
            end
        | None => Normal empty
        end
    end;
  match summary with
  | Some summary =>
      let d := Response.data summary in
      let b :=
        match range, ThisWeek.topPerformers (SummaryData.thisWeek d) with
        | thisWeek, Some tp => setTopPerformers tp b
        | _, _ => b
        end in
      let b :=
        match range, ThisMonth.topPerformers (SummaryData.thisMonth d) with
        | thisMonth, Some tp => setTopPerformers tp b
        | _, _ => b
        end in
      Normal b
  | None => Normal b
  end.

(** Format a Date to "YYYY-MM-DD". *)
Definition formatDate (date : JSDate.Date) : Completion string :=
  try! s <- JSDate.toISOString date;
  Normal (JSDate.slice_0_10 s).

Module DateRange.
Record t : Type := mk {
  startDate : string;
  endDate : string
}.
End DateRange.

Module WeekRanges.
Record t : Type := mk {
  current : DateRange.t;
  previous : DateRange.t
}.
End WeekRanges.

(** Get this-week and last-week ranges based on "today":
    thisWeek is today-6 ... today, lastWeek is today-13 ... today-7. *)
Definition getThisWeekAndLastWeekRanges (tz : Z -> bool -> Z) (today_ : JSDate.Date)
  : Completion WeekRanges.t :=
  let currentEnd := today_ in
  let currentStart := today_ in
  let currentStart :=
    JSDate.setDate tz currentStart (JSDate.numSub (JSDate.getDate tz currentEnd) 6) in
  let prevEnd := currentStart in
  let prevEnd :=
    JSDate.setDate tz prevEnd (JSDate.numSub (JSDate.getDate tz currentStart) 1) in
  let prevStart := prevEnd in
  let prevStart :=
    JSDate.setDate tz prevStart (JSDate.numSub (JSDate.getDate tz prevEnd) 6) in
  try! cs <- formatDate currentStart;
  try! ce <- formatDate currentEnd;
  try! ps <- formatDate prevStart;
  try! pe <- formatDate prevEnd;
  Normal (WeekRanges.mk (DateRange.mk cs ce) (DateRange.mk ps pe)).

Module WeekComparison.
Record t : Type := mk {
  current : WeeklyData.t;
  previous : WeeklyData.t
}.
End WeekComparison.

(** Fetch "this week" vs "last week" using /analytics/range.  [clock]
    is the reading of [new Date()]; [firstWins] is the order in which
    the two requests settle. *)
Definition fetchWeekComparison (tz : Z -> bool -> Z) (clock : Z)
    (net : Network.t) (firstWins : bool) : Async WeekComparison.t :=
  await! r <- ofCompletion (getThisWeekAndLastWeekRanges tz (newDate clock));
  let current := WeekRanges.current r in
  let previous := WeekRanges.previous r in
  fun log =>
    let (c1, log1) :=
      fetchRange net (DateRange.startDate current) (DateRange.endDate current) log in
    let (c2, log2) :=
      fetchRange net (DateRange.startDate previous) (DateRange.endDate previous) log1 in
    (try! both <- promiseAll2 firstWins c1 c2;
     let currentRes := fst both in
     let previousRes := snd both in
     try! ok1 <- successOf currentRes;
     if negb ok1 then Throw (Error "Failed to fetch week comparison") else
     try! ok2 <- successOf previousRes;
     if negb ok2 then Throw (Error "Failed to fetch week comparison") else
     match currentRes, previousRes with
     | Some c, Some p => Normal (WeekComparison.mk (Response.data c) (Response.data p))
     | _, _ => Throw (TypeError "Cannot read properties of null")
     end,
     log2).

End ApiV0.

(* ------------------------------------------------------------------ *)
(** * [app/page.tsx]: the state of the page and its derivations         *)
(* ------------------------------------------------------------------ *)

Module ApiWeeklyData := WeeklyData.

Module Page.

(** [WeeklyData] of the page: as in [lib/api.ts], with [topPerformers]
    optional.  [MonthlyData] and [RangeData] are the same type. *)
Module WeeklyData.
Record t : Type := mk {
  totalClicks : Z;
  uniqueUrls : Z;
  dailyBreakdown : list DailyBreakdown.t;
  locationBreakdown : gmap string Z;
  jobTitleBreakdown : gmap string Z;
  topPerformers : option (list TopPerformer.t)
}.
End WeeklyData.

(** A response of [lib/api.ts] stored in a slot of the page. *)
Definition ofApi (d : ApiWeeklyData.t) : WeeklyData.t :=
  WeeklyData.mk (ApiWeeklyData.totalClicks d) (ApiWeeklyData.uniqueUrls d)
                (ApiWeeklyData.dailyBreakdown d)
                (ApiWeeklyData.locationBreakdown d)
                (ApiWeeklyData.jobTitleBreakdown d)
                (Some (ApiWeeklyData.topPerformers d)).

(** The [useState] cells of the page.  The summary may lack its
    [topPerformers] at run time, hence the [|| []] of the page. *)
Record State : Type := mkState {
  summary : option SummaryData.t;
  weekly : option WeeklyData.t;
  monthly : option WeeklyData.t;
  selectedRange : TimeRange;
  loading : bool;
  rangeData : option WeeklyData.t;
  usingRange : bool;
  rangeLoading : bool;
  rangeError : option string;
  startDate : string;
  endDate : string
}.

Definition initial : State :=
  mkState None None None thisWeek true None false false None "" "".

Definition setSummary (v : option SummaryData.t) (s : State) : State :=
  mkState v (weekly s) (monthly s) (selectedRange s) (loading s) (rangeData s)
          (usingRange s) (rangeLoading s) (rangeError s) (startDate s) (endDate s).
Definition setWeekly (v : option WeeklyData.t) (s : State) : State :=
  mkState (summary s) v (monthly s) (selectedRange s) (loading s) (rangeData s)
          (usingRange s) (rangeLoading s) (rangeError s) (startDate s) (endDate s).
Definition setMonthly (v : option WeeklyData.t) (s : State) : State :=
  mkState (summary s) (weekly s) v (selectedRange s) (loading s) (rangeData s)
          (usingRange s) (rangeLoading s) (rangeError s) (startDate s) (endDate s).
Definition setSelectedRange (v : TimeRange) (s : State) : State :=
  mkState (summary s) (weekly s) (monthly s) v (loading s) (rangeData s)
          (usingRange s) (rangeLoading s) (rangeError s) (startDate s) (endDate s).
Definition setLoading (v : bool) (s : State) : State :=
  mkState (summary s) (weekly s) (monthly s) (selectedRange s) v (rangeData s)
          (usingRange s) (rangeLoading s) (rangeError s) (startDate s) (endDate s).
Definition setRangeData (v : option WeeklyData.t) (s : State) : State :=
  mkState (summary s) (weekly s) (monthly s) (selectedRange s) (loading s) v
          (usingRange s) (rangeLoading s) (rangeError s) (startDate s) (endDate s).
Definition setUsingRange (v : bool) (s : State) : State :=
  mkState (summary s) (weekly s) (monthly s) (selectedRange s) (loading s) (rangeData s)
          v (rangeLoading s) (rangeError s) (startDate s) (endDate s).
Definition setRangeLoading (v : bool) (s : State) : State :=
  mkState (summary s) (weekly s) (monthly s) (selectedRange s) (loading s) (rangeData s)
          (usingRange s) v (rangeError s) (startDate s) (endDate s).
Definition setRangeError (v : option string) (s : State) : State :=
  mkState (summary s) (weekly s) (monthly s) (selectedRange s) (loading s) (rangeData s)
          (usingRange s) (rangeLoading s) v (startDate s) (endDate s).
Definition setStartDate (v : string) (s : State) : State :=
  mkState (summary s) (weekly s) (monthly s) (selectedRange s) (loading s) (rangeData s)
          (usingRange s) (rangeLoading s) (rangeError s) v (endDate s).
Definition setEndDate (v : string) (s : State) : State :=
  mkState (summary s) (weekly s) (monthly s) (selectedRange s) (loading s) (rangeData s)
          (usingRange s) (rangeLoading s) (rangeError s) (startDate s) v.

(** [usingRange && rangeData]: the custom range is active. *)
Definition activeRange (s : State) : option WeeklyData.t :=
  if usingRange s then rangeData s else None.

(** [d.date === iso] as the predicate of [filter] and [find]. *)
Definition onDate (iso : string) (d : DailyBreakdown.t) : bool :=
  String.eqb (DailyBreakdown.date d) iso.

(** Simple ISO strings for today and yesterday. *)
Definition todayISO (tz : Z -> bool -> Z) (clock : Z) : Completion string :=
  let d := newDate clock in
  try! s <- JSDate.toISOString d;
  Normal (JSDate.slice_0_10 s).

Definition yesterdayISO (tz : Z -> bool -> Z) (clock : Z) : Completion string :=
  let d := newDate clock in
  let d := JSDate.setDate tz d (JSDate.numSub (JSDate.getDate tz d) 1) in
  try! s <- JSDate.toISOString d;
  Normal (JSDate.slice_0_10 s).

(** Trend data: if [usingRange], override everything with [rangeData]. *)
Definition trendData (s : State) (todayISO yesterdayISO : string)
  : list DailyBreakdown.t :=
  match activeRange s with
  | Some rangeData => WeeklyData.dailyBreakdown rangeData
  | None =>
      if negb (truthy (weekly s)) && negb (truthy (monthly s)) then [] else
      match selectedRange s, weekly s with
      | today, Some weekly =>
          List.filter (onDate todayISO) (WeeklyData.dailyBreakdown weekly)
      | yesterday, Some weekly =>
          List.filter (onDate yesterdayISO) (WeeklyData.dailyBreakdown weekly)
      | thisWeek, Some weekly => WeeklyData.dailyBreakdown weekly
      | thisMonth, weekly =>
          match monthly s, weekly with
          | Some monthly, _ => WeeklyData.dailyBreakdown monthly
          | None, Some weekly => WeeklyData.dailyBreakdown weekly
          | None, None => []
          end
      | _, None => []
      end
  end.

(** Total clicks subtitle: if [usingRange], use [rangeData.totalClicks]. *)
Definition totalClicksForSelectedRange (s : State) : Z :=
  match activeRange s with
  | Some rangeData => WeeklyData.totalClicks rangeData
  | None =>
      match summary s with
      | None => 0
      | Some summary =>
          match selectedRange s with
          | today => Totals.clicks (SummaryData.today summary)
          | yesterday => Totals.clicks (SummaryData.yesterday summary)
          | thisWeek => ThisWeek.clicks (SummaryData.thisWeek summary)
          | thisMonth => ThisMonth.clicks (SummaryData.thisMonth summary)
          end
      end
  end.

(** Top jobs: range overrides normal behaviour. *)
Definition topJobs (s : State) : list TopPerformer.t :=
  match activeRange s with
  | Some rangeData => default [] (WeeklyData.topPerformers rangeData)
  | None =>
      match summary s with
      | None => []
      | Some summary =>
          match selectedRange s with
          | thisWeek => default [] (ThisWeek.topPerformers (SummaryData.thisWeek summary))
          | thisMonth => default [] (ThisMonth.topPerformers (SummaryData.thisMonth summary))
          | _ =>
              match weekly s with
              | Some weekly => default [] (WeeklyData.topPerformers weekly)
              | None => []
              end
          end
      end
  end.

(** The common shape of the two breakdown derivations: [ofRollup],
    [ofDay] and [ofMonth] read the same field of a rollup, of a day
    and of [summary.thisMonth]. *)
Definition breakdownFor
    (ofRollup : WeeklyData.t -> gmap string Z)
    (ofDay : DailyBreakdown.t -> gmap string Z)
    (ofMonth : ThisMonth.t -> option (gmap string Z))
    (s : State) (todayISO yesterdayISO : string) : gmap string Z :=
  match activeRange s with
  | Some rangeData => ofRollup rangeData
  | None =>
      if negb (truthy (weekly s)) && negb (truthy (monthly s)) then ∅ else
      let fallback :=
        match weekly s, monthly s with
        | Some weekly, _ => ofRollup weekly
        | None, Some monthly => ofRollup monthly
        | None, None => ∅
        end in
      let day :=
        match selectedRange s, weekly s with
        | today, Some weekly => find (onDate todayISO) (WeeklyData.dailyBreakdown weekly)
        | yesterday, Some weekly =>
            find (onDate yesterdayISO) (WeeklyData.dailyBreakdown weekly)
        | _, _ => None
        end in
      match day with
      | Some day => ofDay day
      | None =>
          match selectedRange s, weekly s with
          | thisWeek, Some weekly => ofRollup weekly
          | thisMonth, _ =>
              match monthly s with
              | Some monthly => ofRollup monthly
              | None =>
                  match summary s with
                  | Some summary =>
                      match ofMonth (SummaryData.thisMonth summary) with
                      | Some b => b
                      | None => fallback
                      end
                  | None => fallback
                  end
              end
          | _, _ => fallback
          end
      end
  end.

(** Location breakdown: range overrides. *)
Definition locationBreakdown : State -> string -> string -> gmap string Z :=
  breakdownFor WeeklyData.locationBreakdown DailyBreakdown.locationBreakdown
               ThisMonth.locationBreakdown.

(** Job category breakdown: range overrides. *)
Definition jobCategoryBreakdown : State -> string -> string -> gmap string Z :=
  breakdownFor WeeklyData.jobTitleBreakdown DailyBreakdown.jobTitleBreakdown
               ThisMonth.jobTitleBreakdown.

(* ------------------------------------------------------------------ *)
(** ** Handlers                                                         *)
(* ------------------------------------------------------------------ *)

(** The raw [fetch] of [fetchAll]: the request is issued, the promise
    rejects on a network failure, the [ok] flag is not looked at. *)
Definition rawFetch {A} (rq : Request) (r : FetchResult A) : Async (Body A) :=
  await! _ <- issue rq;
  ofCompletion
    match r with
    | NetworkFailure reason => Throw (TransportError reason)
    | HttpResponse _ _ body => Normal body
    end.

(** [if (j?.success) set(j.data)]. *)
Definition applyIfSuccess {A B} (j : option (Response.t A)) (set : option B -> State -> State)
    (conv : A -> B) (s : State) : State :=
  match j with
  | Some r => if Response.success r then set (Some (conv (Response.data r))) s else s
  | None => s
  end.

(** The [params] of the monthly query: [String(year)] and
    [String(month)] of the local calendar month. *)
Definition monthParams (tz : Z -> bool -> Z) (clock : Z) : string * string :=
  let today_ := newDate clock in
  let year := JSDate.getFullYear tz today_ in
  let month := option_map (fun m => m + 1) (JSDate.getMonth tz today_) in
  (showNumber year, showNumber month).

(** The effect of the page: the three initial fetches.  The result is
    the state after the effect has run to its end, with the requests
    it issued. *)
Definition fetchAll (tz : Z -> bool -> Z) (clock : Z) (net : Network.t) (s : State)
  : State * list Request :=
  let params := monthParams tz clock in
  let (c1, log1) := rawFetch GetSummary (Network.summary net) [] in
  let (c2, log2) := rawFetch GetWeekly (Network.weekly net) log1 in
  let (c3, log3) :=
    rawFetch (GetMonthly (fst params) (snd params))
             (Network.monthly net (fst params) (snd params)) log2 in
  let tried :=
    try! summaryRes <- c1;
    try! weeklyRes <- c2;
    try! monthlyRes <- c3;
    try! summaryJson <- json summaryRes;
    try! weeklyJson <- json weeklyRes;
    try! monthlyJson <- json monthlyRes;
    Normal (applyIfSuccess monthlyJson setMonthly ofApi
             (applyIfSuccess weeklyJson setWeekly ofApi
               (applyIfSuccess summaryJson setSummary (fun d => d) s))) in
  let s :=
    match tried with
    | Normal s' => s'
    | Throw _ => s
    end in
  (setLoading false s, log3).

(** Apply range button. *)
Definition handleApplyRange (net : Network.t) (s : State) : State * list Request :=
  let startDate := startDate s in
  let endDate := endDate s in
  let s := setRangeError None s in
  if notString startDate || notString endDate then
    (setRangeError (Some "Please select both start and end dates.") s, [])
  else if gtString startDate endDate then
    (setRangeError (Some "Start date cannot be after end date.") s, [])
  else
    let s := setRangeLoading true s in
    let (c, log) := fetchRange net startDate endDate [] in
    let s :=
      match (try! res <- c; try! ok <- successOf res; Normal (ok, res)) with
      | Normal (true, Some res) =>
          setUsingRange true (setRangeData (Some (ofApi (Response.data res))) s)
      | Normal _ =>
          setRangeData None
            (setUsingRange false (setRangeError (Some "Range request failed.") s))
      | Throw _ =>
          setRangeData None
            (setUsingRange false
              (setRangeError (Some "Could not load range data. Please try again.") s))
      end in
    (setRangeLoading false s, log).

(** Clear range and go back to normal. *)
Definition handleClearRange (s : State) : State :=
  setRangeError None (setRangeData None (setUsingRange false s)).

(** When the user clicks a card, exit custom range mode. *)
Definition onSelectRange (r : TimeRange) (s : State) : State :=
  setSelectedRange r (setRangeData None (setUsingRange false s)).

End Page.

(* ------------------------------------------------------------------ *)
(** * Arrays                                                            *)
(* ------------------------------------------------------------------ *)

Section JSArray.

Context {A : Type}.

(** The comparator of [array.sort(compare)]: negative when the first
    argument goes first, positive when the second does, zero for a tie. *)
Variable compare : A -> A -> Z.

(** [x] goes before the first element it does not have to follow. *)
Fixpoint insertSorted (x : A) (l : list A) : list A :=
  match l with
  | [] => [x]
  | y :: l' => if compare x y <=? 0 then x :: l else y :: insertSorted x l'
  end.

(** [array.sort(compare)], which is stable: elements that compare
    equal keep their order. *)
Definition sortBy (l : list A) : list A := foldr insertSorted [] l.

End JSArray.

(** [strings.join(sep)]. *)
Fixpoint join (sep : string) (l : list string) : string :=
  match l with
  | [] => ""
  | [x] => x
  | x :: l' => x +:+ sep +:+ join sep l'
  end.

(** [hay.includes(needle)]. *)
Fixpoint includes (needle hay : string) : bool :=
  String.prefix needle hay ||
  match hay with
  | EmptyString => false
  | String _ hay' => includes needle hay'
  end.

(* ------------------------------------------------------------------ *)
(** * The charts                                                        *)
(* ------------------------------------------------------------------ *)

(** A breakdown reaches a chart as an object; [Object.entries] lists
    its properties in their order, here the list [entries].  [None] is
    a missing breakdown, replaced by [{}]. *)
Module Charts.

Definition entriesOf (breakdown : option (list (string * Z))) : list (string * Z) :=
  default [] breakdown.

(** [(a, b) => b[1] - a[1]]. *)
Definition byClicksDesc (a b : string * Z) : Z := b.2 - a.2.

(** [LocationChart]: top 10 locations by clicks, as [{ name, clicks }]. *)
Module Bar.
Record t : Type := mk {
  name : string;
  clicks : Z
}.
End Bar.

Definition toBar (e : string * Z) : Bar.t := Bar.mk e.1 e.2.

Definition locationData (breakdown : option (list (string * Z))) : list Bar.t :=
  map toBar (take 10 (sortBy byClicksDesc (entriesOf breakdown))).

(** [CategoryChart] and [JobCategoryChart]: slices [{ name, value }]. *)
Module Slice.
Record t : Type := mk {
  name : string;
  value : Z
}.
End Slice.

Definition toSlice (e : string * Z) : Slice.t := Slice.mk e.1 e.2.

(** [CategoryChart]: top 15 roles. *)
Definition categoryData (breakdown : option (list (string * Z))) : list Slice.t :=
  map toSlice (take 15 (sortBy byClicksDesc (entriesOf breakdown))).

Definition colors : list string :=
  [ "#22c55e"; "#0ea5e9"; "#a855f7"; "#f97316"; "#facc15";
    "#e11d48"; "#06b6d4"; "#4ade80"; "#3b82f6"; "#6366f1";
    "#ec4899"; "#14b8a6"; "#f59e0b"; "#8b5cf6"; "#84cc16" ].

(** [palette[idx % palette.length]]; [None] is [undefined]. *)
Definition fill (palette : list string) (idx : nat) : option string :=
  palette !! (idx mod List.length palette)%nat.

(** The [fill] of the cells, [data.map((entry, idx) => ...)]. *)
Definition fills {B} (palette : list string) (data : list B) : list (option string) :=
  imap (fun idx _ => fill palette idx) data.






End Charts.

(* ------------------------------------------------------------------ *)
(** * [components/TopJobsTable.tsx]                                     *)
(* ------------------------------------------------------------------ *)

Module TopJobsTable.

(** A [JobRow] has the fields of a [TopPerformer]. *)
Definition JobRow : Type := TopPerformer.t.

(** ** The export to CSV *)

Definition quote : ascii := "034"%char.
Definition newline : ascii := "010"%char.
Definition comma : ascii := ","%char.

(** [v.includes(c)] for a string [c] of one character. *)
Fixpoint hasChar (c : ascii) (v : string) : bool :=
  match v with
  | EmptyString => false
  | String x v' => Ascii.eqb x c || hasChar c v'
  end.

(** [v.replace] of every quote by two quotes. *)
Fixpoint doubleQuotes (v : string) : string :=
  match v with
  | EmptyString => EmptyString
  | String x v' =>
      if Ascii.eqb x quote then String quote (String quote (doubleQuotes v'))
      else String x (doubleQuotes v')
  end.

(** Escape commas / quotes in fields. *)
Definition escapeField (v : string) : string :=
  if hasChar comma v || hasChar quote v || hasChar newline v
  then String quote (doubleQuotes v +:+ String quote EmptyString)
  else v.

Definition headers : list string :=
  ["Job Title"; "Location"; "Clicks"; "Shortcode"; "Original URL"].

(** The columns of a job; [showZ] is [j.clicks.toString()] for a
    count written without exponent. *)
Definition columns (j : JobRow) : list string :=
  [TopPerformer.jobTitle j; TopPerformer.location j; showZ (TopPerformer.clicks j);
   TopPerformer.shortCode j; TopPerformer.originalUrl j].

Definition csvLine (cols : list string) : string :=
  join (String comma EmptyString) (map escapeField cols).

Definition csvLines (jobs : list JobRow) : list string :=
  join (String comma EmptyString) headers :: map (fun j => csvLine (columns j)) jobs.

(** Export ALL jobs to CSV: the content of the downloaded file, or
    [None] when nothing is downloaded. *)
Definition exportJobsToCSV (jobs : list JobRow) : option string :=
  match jobs with
  | [] => None
  | _ => Some (join (String newline EmptyString) (csvLines jobs))
  end.

(** ** Sorting and filtering *)

Inductive SortKey : Type := clicks | location.
Inductive SortDirection : Type := asc | desc.

Definition SortKey_eqb (a b : SortKey) : bool :=
  match a, b with
  | clicks, clicks | location, location => true
  | _, _ => false
  end.

(** The [useState] cells of the table. *)
Record State : Type := mkState {
  search : string;
  sortKey : SortKey;
  sortDirection : SortDirection
}.

Definition initial : State := mkState "" clicks desc.

(** Handle sort changes: toggle the direction of the current key, or
    move to the other key with its default direction. *)
Definition handleSort (key : SortKey) (st : State) : State :=
  if SortKey_eqb (sortKey st) key then
    mkState (search st) (sortKey st)
            match sortDirection st with asc => desc | desc => asc end
  else
    mkState (search st) key match key with clicks => desc | location => asc end.

Section HostStrings.

(** [s.toLowerCase()] and [s.trim()] of the host. *)
Variables (toLowerCase trim : string -> string).

(** Filter by job title or location. *)
Definition filteredJobs (search : string) (jobs : list JobRow) : list JobRow :=
  if String.eqb (trim search) "" then jobs
  else
    let lower := toLowerCase search in
    List.filter
      (fun j =>
         includes lower (toLowerCase (TopPerformer.jobTitle j)) ||
         includes lower (toLowerCase (TopPerformer.location j)))
      jobs.

(** The comparator of the sort by the selected key. *)
Definition compareJobs (key : SortKey) (direction : SortDirection) (a b : JobRow) : Z :=
  let lt :=
    match key with
    | clicks => TopPerformer.clicks a <? TopPerformer.clicks b
    | location =>
        String.ltb (toLowerCase (TopPerformer.location a))
                   (toLowerCase (TopPerformer.location b))
    end in
  let gt :=
    match key with
    | clicks => TopPerformer.clicks b <? TopPerformer.clicks a
    | location =>
        String.ltb (toLowerCase (TopPerformer.location b))
                   (toLowerCase (TopPerformer.location a))
    end in
  if lt then match direction with asc => -1 | desc => 1 end
  else if gt then match direction with asc => 1 | desc => -1 end
  else 0.

(** Sort by selected key (clicks or location). *)
Definition sortedJobs (key : SortKey) (direction : SortDirection)
    (filtered : list JobRow) : list JobRow :=
  sortBy (compareJobs key direction) filtered.

(** The rows of the table for the jobs it is given. *)
Definition rows (st : State) (jobs : list JobRow) : list JobRow :=
  sortedJobs (sortKey st) (sortDirection st) (filteredJobs (search st) jobs).

End HostStrings.

End TopJobsTable.

(** The body of the page is rendered under [!loading && summary && weekly]. *)
Definition showsDashboard (s : Page.State) : bool :=
  negb (Page.loading s) && truthy (Page.summary s) && truthy (Page.weekly s).

(** [clicks] of the object returned by [getSummaryForRange]. *)
Definition clicksOf (s : RangeSummary) : Z :=
  match s with
  | OfDay d => Totals.clicks d
  | OfWeek w => ThisWeek.clicks w
  | OfMonth m => ThisMonth.clicks m
  end.

(* ------------------------------------------------------------------ *)
(** * Vocabulary of the statements                                      *)
(* ------------------------------------------------------------------ *)

(** The calendar day of a time value in UTC, written YYYY-MM-DD. *)
Definition ymd (t : Z) : string :=
  JSDate.pad 4 (JSDate.YearFromTime t) +:+ "-" +:+
  JSDate.pad 2 (JSDate.MonthFromTime t + 1) +:+ "-" +:+
  JSDate.pad 2 (JSDate.DateFromTime t).

(** The day with number [d] (days since 1970-01-01), written YYYY-MM-DD. *)
Definition ymdOfDay (d : Z) : string := ymd (d * JSDate.msPerDay).

(** A time value whose year is written on four digits, and which is
    far enough from the ends of the range of time values for the
    utilities to step back two weeks. *)
Definition fourDigitYears (t : Z) : Prop :=
  0 <= JSDate.YearFromTime (t - 13 * JSDate.msPerDay) /\ JSDate.YearFromTime t <= 9999.

(** A host whose time zone is never more than a day away from UTC and
    whose clock reads time values that leave room for a step of a month. *)
Definition plausibleHost (h : Host.t) : Prop :=
  (forall t isUTC, Z.abs (Host.LocalTZA h t isUTC) <= JSDate.msPerDay) /\
  Z.abs (Host.clockToday h) <= JSDate.maxTime /\
  Z.abs (Host.clockYesterday h) <= JSDate.maxTime - 33 * JSDate.msPerDay.

(** A time zone without daylight saving: one offset at all times. *)
Definition fixedOffset (tz : Z -> bool -> Z) (off : Z) : Prop :=
  forall t isUTC, tz t isUTC = off.

(** What a leg of the comparison or the range query delivers: the data
    of a response that arrived, was parsed and reports success. *)
Definition delivered {A} (c : Completion (option (Response.t A))) : option A :=
  match c with
  | Normal (Some r) => if Response.success r then Some (Response.data r) else None
  | _ => None
  end.

(** What a raw [fetch] of the page delivers: the data of a JSON body
    that reports success; nothing when the fetch rejects or the body is
    not JSON, is [null] or reports no success. *)
Definition rawDelivered {A} (r : FetchResult A) : option A :=
  match r with
  | HttpResponse _ _ (Json resp) =>
      if Response.success resp then Some (Response.data resp) else None
  | _ => None
  end.

(** The raw [fetch] settles to a body that parses as JSON. *)
Definition parses {A} (r : FetchResult A) : bool :=
  match r with
  | HttpResponse _ _ NotJson => false
  | HttpResponse _ _ _ => true
  | NetworkFailure _ => false
  end.

(** The dates of the form pass the validation of the range. *)
Definition validRange (startDate endDate : string) : bool :=
  negb (notString startDate) && negb (notString endDate) &&
  negb (gtString startDate endDate).

(** [a] may stand before [b] in an array sorted with [compare]. *)
Definition precedes {A} (compare : A -> A -> Z) (a b : A) : Prop := compare a b <= 0.

(** The order of two rows of the jobs table under a sort key and a
    direction: by clicks, or by lower-cased location as strings. *)
Definition inOrder (toLowerCase : string -> string)
    (key : TopJobsTable.SortKey) (direction : TopJobsTable.SortDirection)
    (a b : TopPerformer.t) : Prop :=
  match key, direction with
  | TopJobsTable.clicks, TopJobsTable.asc => TopPerformer.clicks a <= TopPerformer.clicks b
  | TopJobsTable.clicks, TopJobsTable.desc => TopPerformer.clicks b <= TopPerformer.clicks a
  | TopJobsTable.location, TopJobsTable.asc =>
      String.leb (toLowerCase (TopPerformer.location a))
                 (toLowerCase (TopPerformer.location b)) = true
  | TopJobsTable.location, TopJobsTable.desc =>
      String.leb (toLowerCase (TopPerformer.location b))
                 (toLowerCase (TopPerformer.location a)) = true
  end.

(** A value without comma, quote or line break. *)
Definition plainField (v : string) : Prop :=
  TopJobsTable.hasChar TopJobsTable.comma v = false /\
  TopJobsTable.hasChar TopJobsTable.quote v = false /\
  TopJobsTable.hasChar TopJobsTable.newline v = false.

(** A reader of one CSV line with the usual quoting rules (a field in
    quotes ends at a quote that is not doubled), used to tell lines
    apart: [cur] is the field read so far. *)
Module CsvReader.

Inductive Mode : Type := AtStart | InPlain | InQuoted | AfterQuote.

Definition snoc (cur : string) (c : ascii) : string := cur +:+ String c EmptyString.

Fixpoint readFields (m : Mode) (cur : string) (s : string) : list string :=
  match s with
  | EmptyString => [cur]
  | String c s' =>
      match m with
      | AtStart =>
          if Ascii.eqb c TopJobsTable.quote then readFields InQuoted cur s'
          else if Ascii.eqb c TopJobsTable.comma then cur :: readFields AtStart "" s'
          else readFields InPlain (snoc cur c) s'
      | InPlain =>
          if Ascii.eqb c TopJobsTable.comma then cur :: readFields AtStart "" s'
          else readFields InPlain (snoc cur c) s'
      | InQuoted =>
          if Ascii.eqb c TopJobsTable.quote then readFields AfterQuote cur s'
          else readFields InQuoted (snoc cur c) s'
      | AfterQuote =>
          if Ascii.eqb c TopJobsTable.quote
          then readFields InQuoted (snoc cur TopJobsTable.quote) s'
          else if Ascii.eqb c TopJobsTable.comma then cur :: readFields AtStart "" s'
          else readFields InPlain (snoc cur c) s'
      end
  end.

Definition readLine (s : string) : list string := readFields AtStart "" s.

End CsvReader.

(** The body of the response a raw [fetch] settles to; [None] when it
    rejects. *)
Definition bodyOf {A} (r : FetchResult A) : option (Body A) :=
  match r with
  | NetworkFailure _ => None
  | HttpResponse _ _ body => Some body
  end.

(** What the page hands to its charts and its table. *)
Definition pageViews (s : Page.State) (todayISO yesterdayISO : string)
  : Z * list DailyBreakdown.t * list TopPerformer.t * gmap string Z * gmap string Z :=
  (Page.totalClicksForSelectedRange s,
   Page.trendData s todayISO yesterdayISO,
   Page.topJobs s,
   Page.locationBreakdown s todayISO yesterdayISO,
   Page.jobCategoryBreakdown s todayISO yesterdayISO).

(** The completion is normal and its drill-down fields are the given ones. *)
Definition drillDownIs (c : Completion Breakdowns.t)
    (loc job : gmap string Z) (top : list TopPerformer.t) : Prop :=
  exists b, c = Normal b /\
    Breakdowns.locationBreakdown b = loc /\
    Breakdowns.jobTitleBreakdown b = job /\
    Breakdowns.topPerformers b = top.

(** The completion is normal and its trend series is the given one. *)
Definition trendIs (c : Completion Breakdowns.t) (trend : list TrendPoint.t) : Prop :=
  exists b, c = Normal b /\ Breakdowns.trendData b = trend.

(** The completion is normal and its top performers are the given ones. *)
Definition topPerformersAre (c : Completion Breakdowns.t) (top : list TopPerformer.t)
  : Prop :=
  exists b, c = Normal b /\ Breakdowns.topPerformers b = top.

(* ------------------------------------------------------------------ *)
(** * Sample data                                                       *)
(* ------------------------------------------------------------------ *)

Module Sample.

(** UTC as the host time zone. *)
Definition utc : Z -> bool -> Z := fun _ _ => 0.

(** New York around the end of daylight saving time in 2025: four
    hours behind UTC until 2025-11-02T06:00Z (02:00 local), five after. *)
Definition newYork : Z -> bool -> Z := fun t isUTC =>
  if isUTC then
    if t <? 1762063200000 then -4 * JSDate.msPerHour else -5 * JSDate.msPerHour
  else
    if t <? 1762048800000 then -4 * JSDate.msPerHour else -5 * JSDate.msPerHour.

(** 2025-12-08T00:00:00Z, that is [new Date("2025-12-08")]. *)
Definition dec8 : Z := 1765152000000.

(** 2025-11-06T00:30:00Z, the evening of November 5th in New York. *)
Definition nov6 : Z := 1762389000000.

Definition host : Host.t := Host.mk utc dec8 dec8.

Definition job (code : string) (n : Z) : TopPerformer.t :=
  TopPerformer.mk code n "Nurse" "Lagos" "https://example.org/job".

Definition lagos (n : Z) : gmap string Z := {[ "Lagos" := n ]}.
Definition nurse (n : Z) : gmap string Z := {[ "Nurse" := n ]}.

Definition dayOf (date : string) (n : Z) : DailyBreakdown.t :=
  DailyBreakdown.mk date n 1 [job "d" n] (lagos n) (nurse n).

Definition week : WeeklyData.t :=
  WeeklyData.mk 10 2 [dayOf "2025-12-07" 3; dayOf "2025-12-08" 7]
                [job "w" 10] (lagos 10) (nurse 10).

Definition month : WeeklyData.t :=
  WeeklyData.mk 40 5 [dayOf "2025-12-01" 40] [job "m" 40] (lagos 40) (nurse 40).

(** A week without an entry for December 7th or 8th. *)
Definition staleWeek : WeeklyData.t :=
  WeeklyData.mk 10 2 [dayOf "2025-11-30" 10] [job "w" 10] (lagos 10) (nurse 10).

Definition summary : SummaryData.t :=
  SummaryData.mk (Totals.mk 7 1) (Totals.mk 3 1)
                 (ThisWeek.mk 10 2 (Some [job "s" 99]))
                 (ThisMonth.mk 40 5 (Some [job "s" 99]) None None).

Definition range42 : WeeklyData.t :=
  WeeklyData.mk 42 4 [dayOf "2025-12-05" 42] [job "r" 42] (lagos 42) (nurse 42).

(** A page on which a custom range is active. *)
Definition activePage : Page.State :=
  Page.mkState (Some summary) (Some (Page.ofApi week)) (Some (Page.ofApi month))
               today false (Some (Page.ofApi range42)) true false None
               "2025-12-05" "2025-12-05".

(** A page showing today, without custom range. *)
Definition todayPage : Page.State :=
  Page.mkState (Some summary) (Some (Page.ofApi week)) (Some (Page.ofApi month))
               today false None false false None "" "".

(** The two windows for the reference date 2025-12-08. *)
Definition decemberWeeks : ApiV0.WeekRanges.t :=
  ApiV0.WeekRanges.mk (ApiV0.DateRange.mk "2025-12-02" "2025-12-08")
                      (ApiV0.DateRange.mk "2025-11-25" "2025-12-01").

Definition envelope {A} (ok : bool) (d : A) : FetchResult A :=
  HttpResponse true 200 (Json (Response.mk ok d)).

(** A service that answers every query with success. *)
Definition service : Network.t :=
  Network.mk (envelope true summary) (envelope true week)
             (fun _ _ => envelope true month) (fun _ _ => envelope true range42).

(** A service whose range query reports [success: false]. *)
Definition refusing : Network.t :=
  Network.mk (envelope true summary) (envelope true week)
             (fun _ _ => envelope true month) (fun _ _ => envelope false range42).

(** A service that cannot be reached. *)
Definition offline : Network.t :=
  Network.mk (NetworkFailure "Failed to fetch") (NetworkFailure "Failed to fetch")
             (fun _ _ => NetworkFailure "Failed to fetch")
             (fun _ _ => NetworkFailure "Failed to fetch").

(** A page whose form holds the dates 2025-12-10 and 2025-12-01. *)
Definition outOfOrderPage : Page.State :=
  Page.setEndDate "2025-12-01" (Page.setStartDate "2025-12-10" todayPage).

(** A page whose form holds the dates 2025-12-01 and 2025-12-10. *)
Definition readyPage : Page.State :=
  Page.setEndDate "2025-12-10" (Page.setStartDate "2025-12-01" todayPage).

(** A service that answers the range query for the week starting on
    December 2nd and reports [success: false] for any other range. *)
Definition previousRefused : Network.t :=
  Network.mk (envelope true summary) (envelope true week)
             (fun _ _ => envelope true month)
             (fun startDate _ =>
                envelope (String.eqb startDate "2025-12-02") range42).

(** Lower case and trimming for text in ASCII. *)
Definition lowerChar (c : ascii) : ascii :=
  let n := nat_of_ascii c in
  if (65 <=? n)%nat && (n <=? 90)%nat then ascii_of_nat (n + 32) else c.

Fixpoint asciiLower (s : string) : string :=
  match s with
  | EmptyString => EmptyString
  | String c s' => String (lowerChar c) (asciiLower s')
  end.

Fixpoint trimLeft (s : string) : string :=
  match s with
  | String c s' => if Ascii.eqb c " "%char then trimLeft s' else s
  | EmptyString => EmptyString
  end.

Definition trimSpaces (s : string) : string :=
  String.rev (trimLeft (String.rev (trimLeft s))).

(** Three jobs, in the order of the response. *)
Definition jobs : list TopPerformer.t :=
  [ TopPerformer.mk "n1" 5 "Nurse" "Lagos" "https://example.org/n1";
    TopPerformer.mk "d1" 9 "Driver, night shift" "Abuja" "https://example.org/d1";
    TopPerformer.mk "c1" 7 "Cook" "lagos" "https://example.org/c1" ].

(** A service that answers with an error status and bodies that
    report success. *)
Definition failingStatus : Network.t :=
  Network.mk (HttpResponse false 500 (Json (Response.mk true summary)))
             (HttpResponse false 500 (Json (Response.mk true week)))
             (fun _ _ => HttpResponse false 500 (Json (Response.mk true month)))
             (fun _ _ => HttpResponse false 500 (Json (Response.mk true range42))).

End Sample.

(* ------------------------------------------------------------------ *)
(** * Properties of the resolver                                        *)
(* ------------------------------------------------------------------ *)

(** Case analysis on what the resolver inspects. *)
Ltac resolver_cases :=
  repeat match goal with
         | |- context [cbind ?c _] => destruct c; simpl
         | |- context [match ?o with Some _ => _ | None => _ end] =>
             destruct o; simpl
         end;
  try reflexivity.

Section Resolver.

Implicit Types (h : Host.t) (w m : WeeklyData.t) (range : TimeRange).
Implicit Types (days : list DailyBreakdown.t) (day : DailyBreakdown.t).

(** The resolver over responses is the resolver over data, applied to
    the data of the successful responses; the summary counts as present
    whatever its [success] flag. *)
Lemma v0_getBreakdownsForRange h
    (weekly monthly : option (Response.t WeeklyData.t))
    (summary : option (Response.t SummaryData.t)) range :
  ApiV0.getBreakdownsForRange h weekly monthly summary range =
  Api.getBreakdownsForRange h (ApiV0.has weekly) (ApiV0.has monthly)
    (option_map Response.data summary) range.
Proof. destruct summary; reflexivity. Qed.

Lemma v0_getSummaryForRange (summary : option (Response.t SummaryData.t)) range :
  ApiV0.getSummaryForRange summary range =
  Api.getSummaryForRange (option_map Response.data summary) range.
Proof. destruct summary; reflexivity. Qed.

Lemma findDay_unique target days day :
  List.NoDup (map DailyBreakdown.date days) ->
  In day days ->
  DailyBreakdown.date day = target ->
  findDay target days = Some day.
Proof.
  unfold findDay.
  induction days as [|d days IH]; simpl; intros Hnd Hin Hdate; [contradiction|].
  apply List.NoDup_cons_iff in Hnd as [Hfresh Hnd].
  destruct (String.eqb_spec (DailyBreakdown.date d) target) as [Heq|Hne].
  - destruct Hin as [->|Hin]; [reflexivity|].
    exfalso. apply Hfresh. rewrite Heq, <- Hdate. now apply in_map.
  - destruct Hin as [->|Hin]; [contradiction|]. now apply IH.
Qed.

Lemma findDay_none target days :
  (forall day, In day days -> DailyBreakdown.date day <> target) ->
  findDay target days = None.
Proof.
  unfold findDay. intros Hno.
  destruct (find _ days) as [d|] eqn:Hfind; [|reflexivity].
  apply find_some in Hfind as [Hin Heq].
  apply String.eqb_eq in Heq. now apply Hno in Hin.
Qed.

Lemma findDay_some target days day :
  findDay target days = Some day ->
  In day days /\ DailyBreakdown.date day = target.
Proof.
  unfold findDay. intros Hfind.
  apply find_some in Hfind as [Hin Heq]. now apply String.eqb_eq in Heq.
Qed.

(** The weekly branch for a single day, once the target date is known. *)
Lemma single_day_branch h w monthly summary range target :
  range = today \/ range = yesterday ->
  targetDate h range = Normal target ->
  Api.getBreakdownsForRange h (Some w) monthly summary range =
  Normal match findDay target (WeeklyData.dailyBreakdown w) with
         | Some day => setDay day (ofRollup w)
         | None => ofRollup w
         end.
Proof.
  intros [-> | ->] Htarget; unfold Api.getBreakdownsForRange;
    rewrite Htarget; simpl;
    destruct (findDay target _), monthly, summary; reflexivity.
Qed.

End Resolver.

(* ------------------------------------------------------------------ *)
(** * Facts about dates                                                 *)
(* ------------------------------------------------------------------ *)

Section DateFacts.

Import JSDate.

(** [YearFromDay] meets its definition in ECMA-262: the largest year
    that starts on or before the day. *)
Lemma YearFromDay_spec d :
  DayFromYear (YearFromDay d) <= d < DayFromYear (YearFromDay d + 1).
Proof.
  unfold YearFromDay. cbv zeta.
  destruct (Z.ltb_spec d (DayFromYear (1970 + d * 400 / 146097))) as [Hlt|Hge];
    [|destruct (Z.leb_spec (DayFromYear (1970 + d * 400 / 146097 + 1)) d) as [Hle|Hgt]];
    unfold DayFromYear in *; Z.div_mod_to_equations; lia.
Qed.

Lemma DayFromYear_next y :
  DayFromYear (y + 1) = DayFromYear y + DaysInYear y.
Proof.
  unfold DayFromYear, DaysInYear, isLeap.
  destruct (Z.eqb_spec (y mod 4) 0), (Z.eqb_spec (y mod 100) 0),
    (Z.eqb_spec (y mod 400) 0); simpl; Z.div_mod_to_equations; lia.
Qed.

Lemma DayFromYear_mono y y' : y <= y' -> DayFromYear y <= DayFromYear y'.
Proof. unfold DayFromYear. intros Hle. Z.div_mod_to_equations. lia. Qed.

Lemma YearFromDay_mono d d' : d <= d' -> YearFromDay d <= YearFromDay d'.
Proof.
  intros Hle.
  destruct (Z.le_gt_cases (YearFromDay d) (YearFromDay d')) as [|Hgt]; [assumption|].
  pose proof (YearFromDay_spec d) as [Hd _].
  pose proof (YearFromDay_spec d') as [_ Hd'].
  assert (DayFromYear (YearFromDay d' + 1) <= DayFromYear (YearFromDay d))
    by (apply DayFromYear_mono; lia).
  lia.
Qed.

Lemma DayWithinYear_range t :
  0 <= DayWithinYear t < 365 + InLeapYear t.
Proof.
  unfold DayWithinYear, InLeapYear, YearFromTime.
  pose proof (YearFromDay_spec (Day t)) as [Hlo Hhi].
  rewrite DayFromYear_next in Hhi. unfold DaysInYear in Hhi.
  destruct (isLeap (YearFromDay (Day t))); lia.
Qed.

Lemma monthOfDay_range d leap : 0 <= monthOfDay d leap <= 11.
Proof.
  unfold monthOfDay.
  repeat match goal with
         | |- context [if ?c then _ else _] => destruct c
         end; lia.
Qed.

Lemma MonthFromTime_range t : 0 <= MonthFromTime t <= 11.
Proof. apply monthOfDay_range. Qed.

(** Within a year the day of the month is between 1 and 31. *)
Lemma dayOfMonth_range d leap :
  0 <= leap <= 1 -> 0 <= d < 365 + leap ->
  1 <= d - monthStart (monthOfDay d leap) leap + 1 <= 31.
Proof.
  intros Hleap Hd. unfold monthOfDay.
  repeat match goal with
         | |- context [if ?a <? ?b then _ else _] => destruct (Z.ltb_spec a b)
         end; simpl; lia.
Qed.

Lemma DateFromTime_range t : 1 <= DateFromTime t <= 31.
Proof.
  unfold DateFromTime, MonthFromTime.
  apply dayOfMonth_range.
  - unfold InLeapYear. destruct (isLeap _); lia.
  - apply DayWithinYear_range.
Qed.

(** Setting the day of the month to [k] less than what it is moves
    the day number back by [k], whatever the month and the year. *)
Lemma MakeDay_back t k :
  MakeDay (YearFromTime t) (MonthFromTime t) (DateFromTime t - k) = Day t - k.
Proof.
  pose proof (MonthFromTime_range t) as Hm.
  unfold MakeDay. cbv zeta.
  rewrite (Z.div_small (MonthFromTime t) 12), (Z.mod_small (MonthFromTime t) 12) by lia.
  rewrite Z.add_0_r.
  unfold DateFromTime, DayWithinYear, InLeapYear. lia.
Qed.

Lemma Day_shift t k : Day (t - k * msPerDay) = Day t - k.
Proof.
  unfold Day. replace (t - k * msPerDay) with (t + (- k) * msPerDay) by lia.
  rewrite Z.div_add by (unfold msPerDay; lia). lia.
Qed.

Lemma MakeDate_back t k :
  MakeDate (Day t - k) (TimeWithinDay t) = t - k * msPerDay.
Proof.
  unfold MakeDate, Day, TimeWithinDay, msPerDay. Z.div_mod_to_equations. lia.
Qed.

(** [d.setDate(d.getDate() - k)]: the local time goes back by [k] days. *)
Lemma setDate_back tz t k :
  setDate tz (Some t) (numSub (getDate tz (Some t)) k) =
  TimeClip (UTC tz (LocalTime tz t - k * msPerDay)).
Proof.
  simpl. now rewrite MakeDay_back, MakeDate_back.
Qed.

(** [d.setDate(n)] for any [n]: the local time moves by the difference
    between [n] and the day of the month it shows. *)
Lemma setDate_any tz t n :
  setDate tz (Some t) (Some n) =
  TimeClip (UTC tz (LocalTime tz t
                    - (DateFromTime (LocalTime tz t) - n) * msPerDay)).
Proof.
  simpl.
  replace n with (DateFromTime (LocalTime tz t) - (DateFromTime (LocalTime tz t) - n))
    at 1 by lia.
  now rewrite MakeDay_back, MakeDate_back.
Qed.

(** With a constant offset the time value itself goes back by [k] days. *)
Lemma setDate_back_fixed tz off t k :
  (forall u isUTC, tz u isUTC = off) ->
  setDate tz (Some t) (numSub (getDate tz (Some t)) k) = TimeClip (t - k * msPerDay).
Proof.
  intros Hfixed. rewrite setDate_back. unfold UTC, LocalTime.
  rewrite !Hfixed. f_equal. lia.
Qed.

End DateFacts.

(* ------------------------------------------------------------------ *)
(** * The drill-down, the summary override and the source precedence    *)
(* ------------------------------------------------------------------ *)

Section Precedence.

Implicit Types (h : Host.t) (w m : WeeklyData.t) (range : TimeRange).

(** On a plausible host the target date of the drill-down is computed:
    neither [toISOString] throws. *)
Lemma targetDate_total h range :
  plausibleHost h -> exists target, targetDate h range = Normal target.
Proof.
  intros (Htz & Htoday & Hyesterday). unfold targetDate, newDate.
  assert (Hclip : forall t, Z.abs t <= JSDate.maxTime -> JSDate.TimeClip t = Some t).
  { intros t Ht. unfold JSDate.TimeClip.
    destruct (Z.ltb_spec JSDate.maxTime (Z.abs t)); [lia | reflexivity]. }
  rewrite (Hclip (Host.clockToday h)) by exact Htoday.
  rewrite (Hclip (Host.clockYesterday h)) by (unfold JSDate.msPerDay in *; lia).
  cbn [JSDate.getDate JSDate.numSub]. rewrite setDate_any.
  set (t1 := JSDate.LocalTime (Host.LocalTZA h) (Host.clockToday h)).
  set (t2 := JSDate.LocalTime (Host.LocalTZA h) (Host.clockYesterday h)).
  set (moved := t2 - _).
  rewrite (Hclip (JSDate.UTC (Host.LocalTZA h) moved)).
  - destruct range; simpl; eauto.
  - pose proof (DateFromTime_range t1). pose proof (DateFromTime_range t2).
    pose proof (Htz (Host.clockYesterday h) true).
    pose proof (Htz moved false).
    subst moved t2. unfold JSDate.UTC, JSDate.LocalTime, JSDate.msPerDay in *.
    nia.
Qed.

(** C1.  For [today] and [yesterday] with the weekly data present (the
    monthly branch is then never taken): when the daily breakdown of the
    week, whose dates are unique, has an entry for the computed target
    date, the location breakdown, the job-title breakdown and the top
    performers are those of that entry ([topShortCodes] for the
    performers); when it has none, the three are those of the week, and
    the function returns normally.  Both revisions of the resolver. *)
Theorem drilldown_day_or_week h w
    (monthly : option WeeklyData.t) (summary : option SummaryData.t)
    (monthlyRes : option (Response.t WeeklyData.t))
    (summaryRes : option (Response.t SummaryData.t)) range target :
  range = today \/ range = yesterday ->
  targetDate h range = Normal target ->
  let days := WeeklyData.dailyBreakdown w in
  let resolved := Api.getBreakdownsForRange h (Some w) monthly summary range in
  let resolved0 :=
    ApiV0.getBreakdownsForRange h (Some (Response.mk true w)) monthlyRes summaryRes range in
  (forall day,
      List.NoDup (map DailyBreakdown.date days) ->
      In day days ->
      DailyBreakdown.date day = target ->
      drillDownIs resolved (DailyBreakdown.locationBreakdown day)
        (DailyBreakdown.jobTitleBreakdown day) (DailyBreakdown.topShortCodes day) /\
      drillDownIs resolved0 (DailyBreakdown.locationBreakdown day)
        (DailyBreakdown.jobTitleBreakdown day) (DailyBreakdown.topShortCodes day)) /\
  ((forall day, In day days -> DailyBreakdown.date day <> target) ->
      drillDownIs resolved (WeeklyData.locationBreakdown w)
        (WeeklyData.jobTitleBreakdown w) (WeeklyData.topPerformers w) /\
      drillDownIs resolved0 (WeeklyData.locationBreakdown w)
        (WeeklyData.jobTitleBreakdown w) (WeeklyData.topPerformers w)).
Proof.
  intros Hrange Htarget days resolved resolved0.
  assert (Hsame : resolved0 = Api.getBreakdownsForRange h (Some w)
            (ApiV0.has monthlyRes) (option_map Response.data summaryRes) range)
    by apply v0_getBreakdownsForRange.
  subst resolved days. rewrite Hsame.
  rewrite !(single_day_branch h w _ _ range target Hrange Htarget).
  split.
  - intros day Hnd Hin Hdate.
    rewrite (findDay_unique target _ day Hnd Hin Hdate).
    split; eexists; (split; [reflexivity|]); simpl; auto.
  - intros Hnone. rewrite (findDay_none target _ Hnone).
    split; eexists; (split; [reflexivity|]); simpl; auto.
Qed.

(** C2.  When the summary is present and its [thisWeek] (respectively
    [thisMonth]) entry carries a non-empty [topPerformers], the resolved
    top performers for [thisWeek] (respectively [thisMonth]) are that
    list, whatever the weekly and monthly data; for [today] and
    [yesterday] the result is the one obtained without any summary.
    Both revisions of the resolver. *)
Theorem summary_top_performers_override h
    (weekly monthly : option WeeklyData.t)
    (weeklyRes monthlyRes : option (Response.t WeeklyData.t))
    (s : SummaryData.t) (ok : bool) :
  (forall tp, tp <> [] ->
     ThisWeek.topPerformers (SummaryData.thisWeek s) = Some tp ->
     topPerformersAre (Api.getBreakdownsForRange h weekly monthly (Some s) thisWeek) tp /\
     topPerformersAre
       (ApiV0.getBreakdownsForRange h weeklyRes monthlyRes
          (Some (Response.mk ok s)) thisWeek) tp) /\
  (forall tp, tp <> [] ->
     ThisMonth.topPerformers (SummaryData.thisMonth s) = Some tp ->
     topPerformersAre (Api.getBreakdownsForRange h weekly monthly (Some s) thisMonth) tp /\
     topPerformersAre
       (ApiV0.getBreakdownsForRange h weeklyRes monthlyRes
          (Some (Response.mk ok s)) thisMonth) tp) /\
  (forall range, range = today \/ range = yesterday ->
     Api.getBreakdownsForRange h weekly monthly (Some s) range =
     Api.getBreakdownsForRange h weekly monthly None range /\
     ApiV0.getBreakdownsForRange h weeklyRes monthlyRes (Some (Response.mk ok s)) range =
     ApiV0.getBreakdownsForRange h weeklyRes monthlyRes None range).
Proof.
  split; [|split].
  - intros tp _ Htp. rewrite v0_getBreakdownsForRange.
    unfold Api.getBreakdownsForRange. simpl. rewrite Htp.
    split.
    + destruct weekly, monthly; simpl; eexists; split; reflexivity.
    + destruct (ApiV0.has weeklyRes), (ApiV0.has monthlyRes); simpl;
        eexists; split; reflexivity.
  - intros tp _ Htp. rewrite v0_getBreakdownsForRange.
    unfold Api.getBreakdownsForRange. simpl. rewrite Htp.
    split.
    + destruct weekly, monthly; simpl; eexists; split; reflexivity.
    + destruct (ApiV0.has weeklyRes), (ApiV0.has monthlyRes); simpl;
        eexists; split; reflexivity.
  - intros range Hrange. rewrite !v0_getBreakdownsForRange. simpl.
    destruct Hrange as [-> | ->]; unfold Api.getBreakdownsForRange; split.
    all: try (destruct weekly, monthly; simpl; resolver_cases).
    all: destruct (ApiV0.has weeklyRes), (ApiV0.has monthlyRes); simpl; resolver_cases.
Qed.

End Precedence.

Section PrecedenceExamples.

(** On December 8th the drill-down finds the entry of the day; in a
    week without such an entry the week-level values stay. *)
Lemma drilldown_day_or_week_witness :
  drillDownIs
    (Api.getBreakdownsForRange Sample.host (Some Sample.week) None None today)
    (Sample.lagos 7) (Sample.nurse 7) [Sample.job "d" 7] /\
  drillDownIs
    (Api.getBreakdownsForRange Sample.host (Some Sample.staleWeek) None None today)
    (Sample.lagos 10) (Sample.nurse 10) [Sample.job "w" 10].
Proof.
  split.
  - destruct (drilldown_day_or_week Sample.host Sample.week None None None None
                today "2025-12-08" (or_introl eq_refl) eq_refl) as [Hday _].
    apply (Hday (Sample.dayOf "2025-12-08" 7)).
    + repeat constructor; simpl; intuition discriminate.
    + simpl. right. left. reflexivity.
    + reflexivity.
  - destruct (drilldown_day_or_week Sample.host Sample.staleWeek None None None None
                today "2025-12-08" (or_introl eq_refl) eq_refl) as [_ Hnone].
    apply Hnone. simpl. intros day [<- | []]. discriminate.
Defined.

(** The summary list [{clicks: 99}] replaces the weekly list [{clicks: 10}]. *)
Lemma summary_top_performers_override_witness :
  topPerformersAre
    (Api.getBreakdownsForRange Sample.host (Some Sample.week) (Some Sample.month)
       (Some Sample.summary) thisWeek)
    [Sample.job "s" 99].
Proof.
  destruct (summary_top_performers_override Sample.host
              (Some Sample.week) (Some Sample.month) None None Sample.summary true)
    as [Hweek _].
  apply (Hweek [Sample.job "s" 99]); [discriminate | reflexivity].
Defined.

(** A summary list that is present but empty also replaces the weekly
    list: an empty array is truthy. *)
Lemma empty_summary_list_overrides h (weekly monthly : option WeeklyData.t)
    (s : SummaryData.t) :
  ThisWeek.topPerformers (SummaryData.thisWeek s) = Some [] ->
  topPerformersAre (Api.getBreakdownsForRange h weekly monthly (Some s) thisWeek) [].
Proof.
  intros Htp. unfold Api.getBreakdownsForRange. rewrite Htp.
  destruct weekly, monthly; simpl; eexists; split; reflexivity.
Qed.

End PrecedenceExamples.

Section MonthlyPrecedence.

Implicit Types (h : Host.t) (w m : WeeklyData.t).

(** The top performers that the last step of the resolver keeps for
    [thisMonth], given those of the monthly data. *)
Lemma monthly_top_counterexample :
  ~ topPerformersAre
      (Api.getBreakdownsForRange Sample.host (Some Sample.week) (Some Sample.month)
         (Some Sample.summary) thisMonth)
      (WeeklyData.topPerformers Sample.month).
Proof.
  intros [b [Hb Htop]]. vm_compute in Hb. injection Hb as <-.
  vm_compute in Htop. discriminate.
Qed.

(** C3, amended.  For [thisMonth] with the monthly and the weekly data
    present, the trend series is the daily breakdown of the month
    projected to date and total clicks, the two breakdowns are those of
    the month, and the top performers are those of the month unless the
    summary is present and carries a [topPerformers] for [thisMonth],
    which then replaces them; nothing is taken from the weekly data: the
    result is the same for any weekly data, present or absent. *)
Theorem monthly_precedence h w m (summary : option SummaryData.t) :
  exists b,
    Api.getBreakdownsForRange h (Some w) (Some m) summary thisMonth = Normal b /\
    Breakdowns.trendData b = map toTrendPoint (WeeklyData.dailyBreakdown m) /\
    Breakdowns.locationBreakdown b = WeeklyData.locationBreakdown m /\
    Breakdowns.jobTitleBreakdown b = WeeklyData.jobTitleBreakdown m /\
    Breakdowns.topPerformers b =
      match summary with
      | Some s => default (WeeklyData.topPerformers m)
                    (ThisMonth.topPerformers (SummaryData.thisMonth s))
      | None => WeeklyData.topPerformers m
      end /\
    forall weekly : option WeeklyData.t,
      Api.getBreakdownsForRange h weekly (Some m) summary thisMonth = Normal b.
Proof.
  unfold Api.getBreakdownsForRange. simpl.
  destruct summary as [s|]; simpl;
    [destruct (ThisMonth.topPerformers (SummaryData.thisMonth s)); simpl|];
    eexists; repeat split; reflexivity.
Qed.

(** C5.  With no summary, no weekly and no monthly data, for every
    range: the totals are zero clicks and zero unique URLs, and the
    breakdowns, the top performers and the trend series are empty, in
    both revisions of the resolver, which return normally; on the page,
    with no custom-range data either, the click total is zero and the
    five derivations are empty. *)
Theorem nothing_loaded h (range : TimeRange)
    (loading usingRange rangeLoading : bool) (rangeError : option string)
    (startDate endDate todayISO yesterdayISO : string) :
  let page :=
    Page.mkState None None None range loading None usingRange rangeLoading
                 rangeError startDate endDate in
  Api.getSummaryForRange None range = OfDay (Totals.mk 0 0) /\
  Api.getBreakdownsForRange h None None None range = Normal (Breakdowns.mk ∅ ∅ [] []) /\
  ApiV0.getSummaryForRange None range = OfDay (Totals.mk 0 0) /\
  ApiV0.getBreakdownsForRange h None None None range = Normal (Breakdowns.mk ∅ ∅ [] []) /\
  Page.totalClicksForSelectedRange page = 0 /\
  Page.trendData page todayISO yesterdayISO = [] /\
  Page.topJobs page = [] /\
  Page.locationBreakdown page todayISO yesterdayISO = ∅ /\
  Page.jobCategoryBreakdown page todayISO yesterdayISO = ∅.
Proof.
  destruct range, usingRange; repeat split; reflexivity.
Qed.

End MonthlyPrecedence.

(* ------------------------------------------------------------------ *)
(** * The trend series of a single day, and the custom range            *)
(* ------------------------------------------------------------------ *)

Section TrendAndCustomRange.

Implicit Types (h : Host.t) (w m : WeeklyData.t) (range : TimeRange).

(** On December 8th the page, showing [today], keeps one of the two
    days of the week in its trend series. *)
Lemma page_trend_counterexample :
  Page.todayISO Sample.utc Sample.dec8 = Normal "2025-12-08" /\
  Page.yesterdayISO Sample.utc Sample.dec8 = Normal "2025-12-07" /\
  Page.weekly Sample.todayPage = Some (Page.ofApi Sample.week) /\
  map toTrendPoint (Page.trendData Sample.todayPage "2025-12-08" "2025-12-07") <>
  map toTrendPoint (WeeklyData.dailyBreakdown Sample.week).
Proof.
  repeat split; try reflexivity. vm_compute. discriminate.
Qed.

(** C6, amended.  For [today] and [yesterday] with the weekly data
    present, the trend series of [getBreakdownsForRange] is the whole
    daily breakdown of the week projected to date and total clicks, in
    both revisions; the trend series of the page, without an active
    custom range, is that daily breakdown narrowed to the entries dated
    [todayISO] (respectively [yesterdayISO]). *)
Theorem trend_for_single_day h w
    (monthly : option WeeklyData.t) (summary : option SummaryData.t)
    (monthlyRes : option (Response.t WeeklyData.t))
    (summaryRes : option (Response.t SummaryData.t))
    range target (s : Page.State) (pw : Page.WeeklyData.t)
    (todayISO yesterdayISO : string) :
  range = today \/ range = yesterday ->
  targetDate h range = Normal target ->
  trendIs (Api.getBreakdownsForRange h (Some w) monthly summary range)
    (map toTrendPoint (WeeklyData.dailyBreakdown w)) /\
  trendIs
    (ApiV0.getBreakdownsForRange h (Some (Response.mk true w)) monthlyRes summaryRes range)
    (map toTrendPoint (WeeklyData.dailyBreakdown w)) /\
  (Page.activeRange s = None ->
   Page.weekly s = Some pw ->
   Page.selectedRange s = range ->
   Page.trendData s todayISO yesterdayISO =
     List.filter
       (Page.onDate match range with today => todayISO | _ => yesterdayISO end)
       (Page.WeeklyData.dailyBreakdown pw)).
Proof.
  intros Hrange Htarget.
  rewrite v0_getBreakdownsForRange.
  rewrite !(single_day_branch h w _ _ range target Hrange Htarget).
  repeat split.
  - destruct (findDay _ _); eexists; split; reflexivity.
  - destruct (findDay _ _); eexists; split; reflexivity.
  - intros Hinactive Hweekly Hsel. unfold Page.trendData.
    rewrite Hinactive, Hweekly, Hsel.
    destruct Hrange as [-> | ->]; reflexivity.
Qed.

Lemma trend_for_single_day_witness :
  trendIs (Api.getBreakdownsForRange Sample.host (Some Sample.week) None None today)
    (map toTrendPoint (WeeklyData.dailyBreakdown Sample.week)) /\
  Page.trendData Sample.todayPage "2025-12-08" "2025-12-07" =
    [Sample.dayOf "2025-12-08" 7].
Proof.
  destruct (trend_for_single_day Sample.host Sample.week None None None None
              today "2025-12-08" Sample.todayPage (Page.ofApi Sample.week)
              "2025-12-08" "2025-12-07" (or_introl eq_refl) eq_refl)
    as [Hapi [_ Hpage]].
  split; [exact Hapi|].
  rewrite (Hpage eq_refl eq_refl eq_refl). reflexivity.
Defined.

(** C4.  While a custom range is active ([usingRange] set and
    [rangeData] holding a dataset), the click total, the trend series,
    the top jobs, the location breakdown and the job-category breakdown
    of the page are those of that dataset, whatever the summary, weekly
    and monthly slots hold and whatever range card is selected. *)
Theorem custom_range_wholesale
    (summary : option SummaryData.t) (weekly monthly : option Page.WeeklyData.t)
    (selectedRange : TimeRange) (rangeData : Page.WeeklyData.t)
    (loading rangeLoading : bool) (rangeError : option string)
    (startDate endDate todayISO yesterdayISO : string) :
  let page :=
    Page.mkState summary weekly monthly selectedRange loading (Some rangeData) true
                 rangeLoading rangeError startDate endDate in
  Page.totalClicksForSelectedRange page = Page.WeeklyData.totalClicks rangeData /\
  Page.trendData page todayISO yesterdayISO = Page.WeeklyData.dailyBreakdown rangeData /\
  Page.topJobs page = default [] (Page.WeeklyData.topPerformers rangeData) /\
  Page.locationBreakdown page todayISO yesterdayISO =
    Page.WeeklyData.locationBreakdown rangeData /\
  Page.jobCategoryBreakdown page todayISO yesterdayISO =
    Page.WeeklyData.jobTitleBreakdown rangeData.
Proof. repeat split. Qed.

(** With a dataset of 42 clicks the click total is 42. *)
Example custom_range_42 :
  Page.totalClicksForSelectedRange Sample.activePage = 42 /\
  Page.topJobs Sample.activePage = [Sample.job "r" 42].
Proof. split; reflexivity. Qed.

End TrendAndCustomRange.

(* ------------------------------------------------------------------ *)
(** * The week ranges                                                   *)
(* ------------------------------------------------------------------ *)

Section WeekRangeFacts.

Import JSDate.

Lemma string_app_cons x (a b : string) : String x a +:+ b = String x (a +:+ b).
Proof. reflexivity. Qed.

Lemma string_app_assoc (a b c : string) : (a +:+ b) +:+ c = a +:+ (b +:+ c).
Proof.
  induction a as [|x a IH]; [reflexivity|].
  rewrite !string_app_cons. now f_equal.
Qed.

Lemma string_app_length (a b : string) :
  String.length (a +:+ b) = (String.length a + String.length b)%nat.
Proof.
  induction a as [|x a IH]; [reflexivity|].
  rewrite string_app_cons. simpl. now f_equal.
Qed.

Lemma substring_prefix (a b : string) : substring 0 (String.length a) (a +:+ b) = a.
Proof.
  induction a as [|x a IH].
  - destruct b; reflexivity.
  - rewrite string_app_cons. simpl. now f_equal.
Qed.

Lemma padDigits_length n v acc :
  String.length (padDigits n v acc) = (n + String.length acc)%nat.
Proof.
  revert v acc. induction n as [|n IH]; intros v acc; simpl; [reflexivity|].
  rewrite IH. simpl. lia.
Qed.

Lemma pad_length n v : String.length (pad n v) = n.
Proof. unfold pad. rewrite padDigits_length. simpl. lia. Qed.

Lemma ymd_length t : String.length (ymd t) = 10%nat.
Proof.
  unfold ymd. rewrite !string_app_length, !pad_length. reflexivity.
Qed.

(** The first ten characters of the ISO string are the calendar day,
    provided the year is written on four digits. *)
Lemma slice_isoString t :
  0 <= YearFromTime t <= 9999 ->
  slice_0_10 (isoString t) = ymd t.
Proof.
  intros [Hlo Hhi]. unfold isoString, isoYear.
  apply Z.leb_le in Hlo, Hhi. rewrite Hlo, Hhi. simpl andb. cbv iota.
  set (rest := "T" +:+ _).
  replace (pad 4 (YearFromTime t) +:+ "-" +:+ pad 2 (MonthFromTime t + 1) +:+ "-" +:+
           pad 2 (DateFromTime t) +:+ rest)
    with (ymd t +:+ rest)
    by (unfold ymd; now rewrite !string_app_assoc).
  unfold slice_0_10. rewrite <- (ymd_length t). apply substring_prefix.
Qed.

Lemma Day_of_day d : Day (d * msPerDay) = d.
Proof. unfold Day. apply Z.div_mul. unfold msPerDay. lia. Qed.

(** The calendar day of a time value depends on its day number only. *)
Lemma ymd_by_day t : ymd t = ymdOfDay (Day t).
Proof.
  unfold ymdOfDay, ymd, DateFromTime, MonthFromTime, InLeapYear, DayWithinYear,
    YearFromTime.
  now rewrite Day_of_day.
Qed.

Lemma YearFromTime_mono t t' : t <= t' -> YearFromTime t <= YearFromTime t'.
Proof.
  intros Hle. apply YearFromDay_mono. unfold Day.
  apply Z.div_le_mono; [unfold msPerDay; lia | assumption].
Qed.

(** Time values with a four-digit year are well inside the range. *)
Lemma four_digit_in_range t :
  0 <= YearFromTime t <= 9999 -> TimeClip t = Some t.
Proof.
  intros [Hlo Hhi]. unfold YearFromTime in *.
  pose proof (YearFromDay_spec (Day t)) as [Hfrom Hto].
  pose proof (DayFromYear_mono 0 _ Hlo) as H0.
  pose proof (DayFromYear_mono (YearFromDay (Day t) + 1) 10000 ltac:(lia)) as H1.
  change (DayFromYear 0) with (-719528) in H0.
  change (DayFromYear 10000) with 2932897 in H1.
  unfold TimeClip.
  destruct (Z.ltb_spec maxTime (Z.abs t)) as [Hout|]; [|reflexivity].
  exfalso. unfold Day, msPerDay, maxTime in *.
  Z.div_mod_to_equations. lia.
Qed.

Lemma formatDate_four_digit t :
  0 <= YearFromTime t <= 9999 ->
  ApiV0.formatDate (Some t) = Normal (ymdOfDay (Day t)).
Proof.
  intros Hyear. unfold ApiV0.formatDate. simpl.
  now rewrite slice_isoString, ymd_by_day.
Qed.

(** X17.  In a time zone with a constant offset, and for years written
    on four digits, the current window is the reference day and the six
    days before it, the previous window the seven days before that. *)
Lemma week_ranges_fixed_offset tz off t :
  fixedOffset tz off ->
  fourDigitYears t ->
  ApiV0.getThisWeekAndLastWeekRanges tz (Some t) =
  Normal (ApiV0.WeekRanges.mk
            (ApiV0.DateRange.mk (ymdOfDay (Day t - 6)) (ymdOfDay (Day t)))
            (ApiV0.DateRange.mk (ymdOfDay (Day t - 13)) (ymdOfDay (Day t - 7)))).
Proof.
  intros Hfixed [Hlo Hhi].
  assert (Hyear : forall k, 0 <= k <= 13 -> 0 <= YearFromTime (t - k * msPerDay) <= 9999).
  { intros k Hk. split.
    - etransitivity; [exact Hlo|]. apply YearFromTime_mono. unfold msPerDay. lia.
    - etransitivity; [|exact Hhi]. apply YearFromTime_mono. unfold msPerDay. lia. }
  unfold ApiV0.getThisWeekAndLastWeekRanges. cbv zeta.
  rewrite (setDate_back_fixed tz off t 6 Hfixed).
  rewrite (four_digit_in_range _ (Hyear 6 ltac:(lia))).
  rewrite (setDate_back_fixed tz off _ 1 Hfixed).
  replace (t - 6 * msPerDay - 1 * msPerDay) with (t - 7 * msPerDay) by lia.
  rewrite (four_digit_in_range _ (Hyear 7 ltac:(lia))).
  rewrite (setDate_back_fixed tz off _ 6 Hfixed).
  replace (t - 7 * msPerDay - 6 * msPerDay) with (t - 13 * msPerDay) by lia.
  rewrite (four_digit_in_range _ (Hyear 13 ltac:(lia))).
  rewrite (formatDate_four_digit (t - 6 * msPerDay)) by (apply Hyear; lia).
  rewrite (formatDate_four_digit (t - 7 * msPerDay)) by (apply Hyear; lia).
  rewrite (formatDate_four_digit (t - 13 * msPerDay)) by (apply Hyear; lia).
  rewrite (formatDate_four_digit t)
    by (replace t with (t - 0 * msPerDay) by lia; apply Hyear; lia).
  cbn [cbind]. now rewrite !Day_shift.
Qed.

(** The example of the reference date 2025-12-08, in UTC and in New York. *)
Example week_ranges_dec8 :
  ApiV0.getThisWeekAndLastWeekRanges Sample.utc (Some Sample.dec8) =
    Normal (ApiV0.WeekRanges.mk (ApiV0.DateRange.mk "2025-12-02" "2025-12-08")
                          (ApiV0.DateRange.mk "2025-11-25" "2025-12-01")) /\
  ApiV0.getThisWeekAndLastWeekRanges Sample.newYork (Some Sample.dec8) =
    Normal (ApiV0.WeekRanges.mk (ApiV0.DateRange.mk "2025-12-02" "2025-12-08")
                          (ApiV0.DateRange.mk "2025-11-25" "2025-12-01")).
Proof. split; vm_compute; reflexivity. Qed.

(** C7.  In New York, for the reference date 2025-11-06T00:30Z (the
    evening of November 5th, local time), the week-range utility
    returns a current window of eight days and a previous window of
    seven days that ends eight days before the reference date: the
    days are stepped in local time, across the end of daylight saving
    time, and written in UTC. *)
Theorem week_ranges_across_dst :
  ApiV0.getThisWeekAndLastWeekRanges Sample.newYork (Some Sample.nov6) =
    Normal (ApiV0.WeekRanges.mk (ApiV0.DateRange.mk "2025-10-30" "2025-11-06")
                          (ApiV0.DateRange.mk "2025-10-23" "2025-10-29")) /\
  ymdOfDay (Day Sample.nov6 - 6) = "2025-10-31" /\
  ymdOfDay (Day Sample.nov6 - 7) = "2025-10-30" /\
  ymdOfDay (Day Sample.nov6 - 13) = "2025-10-24".
Proof. repeat split; vm_compute; reflexivity. Qed.

End WeekRangeFacts.

(* ------------------------------------------------------------------ *)
(** * The week comparison                                               *)
(* ------------------------------------------------------------------ *)

Section WeekComparison.

(** C8.  Once the two week ranges are computed, the comparison issues
    both range requests; when both legs deliver (the request is
    answered, the body parses, [success] is set) it returns the data of
    the first as [current] and of the second as [previous]; when either
    leg does not deliver it throws, and the error carries no data: in
    particular, when the previous week reports [success: false] while
    the current week succeeded, the error is the fixed message. *)
Theorem week_comparison_all_or_nothing (tz : Z -> bool -> Z) (clock : Z)
    (net : Network.t) (firstWins : bool) (log : list Request)
    (r : ApiV0.WeekRanges.t) :
  ApiV0.getThisWeekAndLastWeekRanges tz (newDate clock) = Normal r ->
  let cur := ApiV0.WeekRanges.current r in
  let prev := ApiV0.WeekRanges.previous r in
  let leg1 :=
    fetchJson (Network.range net (ApiV0.DateRange.startDate cur)
                                 (ApiV0.DateRange.endDate cur)) in
  let leg2 :=
    fetchJson (Network.range net (ApiV0.DateRange.startDate prev)
                                 (ApiV0.DateRange.endDate prev)) in
  let result := ApiV0.fetchWeekComparison tz clock net firstWins log in
  snd result =
    (log ++ [GetRange (ApiV0.DateRange.startDate cur) (ApiV0.DateRange.endDate cur);
             GetRange (ApiV0.DateRange.startDate prev) (ApiV0.DateRange.endDate prev)])%list /\
  match delivered leg1, delivered leg2 with
  | Some c, Some p => fst result = Normal (ApiV0.WeekComparison.mk c p)
  | _, _ => exists e, fst result = Throw e
  end /\
  (forall c p,
      leg1 = Normal (Some (Response.mk true c)) ->
      leg2 = Normal (Some (Response.mk false p)) ->
      fst result = Throw (Error "Failed to fetch week comparison")).
Proof.
  intros Hranges cur prev leg1 leg2 result.
  subst result. unfold ApiV0.fetchWeekComparison, abind, ofCompletion.
  rewrite Hranges. fold cur prev.
  unfold fetchRange, abind, issue, ofCompletion. fold leg1 leg2.
  cbn [fst snd]. split; [|split].
  - now rewrite <- app_assoc.
  - destruct leg1 as [[[[] c]|]|e1], leg2 as [[[[] p]|]|e2], firstWins;
      cbn; eauto.
  - intros c p -> ->. reflexivity.
Qed.

Lemma week_comparison_all_or_nothing_witness :
  fst (ApiV0.fetchWeekComparison Sample.utc Sample.dec8 Sample.service true []) =
    Normal (ApiV0.WeekComparison.mk Sample.range42 Sample.range42) /\
  fst (ApiV0.fetchWeekComparison Sample.utc Sample.dec8 Sample.previousRefused true []) =
    Throw (Error "Failed to fetch week comparison").
Proof.
  assert (Hranges :
    ApiV0.getThisWeekAndLastWeekRanges Sample.utc (newDate Sample.dec8) =
    Normal Sample.decemberWeeks) by (vm_compute; reflexivity).
  split.
  - pose proof (week_comparison_all_or_nothing Sample.utc Sample.dec8 Sample.service
                  true [] Sample.decemberWeeks Hranges) as [_ [Hpair _]].
    exact Hpair.
  - pose proof (week_comparison_all_or_nothing Sample.utc Sample.dec8
                  Sample.previousRefused true [] Sample.decemberWeeks Hranges)
      as [_ [_ Hfail]].
    exact (Hfail Sample.range42 Sample.range42 eq_refl eq_refl).
Defined.

End WeekComparison.

(* ------------------------------------------------------------------ *)
(** * The custom range and the dataset slots                            *)
(* ------------------------------------------------------------------ *)

Section CustomRange.

Implicit Types (net : Network.t) (s : Page.State).

(** The click on "Apply range" when the dates do not pass validation:
    an error is set, nothing else changes, no request is issued. *)
Lemma apply_range_rejected net s :
  validRange (Page.startDate s) (Page.endDate s) = false ->
  Page.handleApplyRange net s =
    (Page.setRangeError
       (Some (if notString (Page.startDate s) || notString (Page.endDate s)
              then "Please select both start and end dates."
              else "Start date cannot be after end date.")) s, []).
Proof.
  unfold validRange, Page.handleApplyRange. intros Hinvalid.
  destruct (notString (Page.startDate s)), (notString (Page.endDate s));
    try reflexivity.
  destruct (gtString (Page.startDate s) (Page.endDate s)); [reflexivity|discriminate].
Qed.

(** The click on "Apply range" when the dates pass validation: one
    range request, and the slot set according to what it delivers. *)
Lemma apply_range_fetched net s :
  validRange (Page.startDate s) (Page.endDate s) = true ->
  let answer := fetchJson (Network.range net (Page.startDate s) (Page.endDate s)) in
  Page.handleApplyRange net s =
    (Page.setRangeLoading false
       match delivered answer with
       | Some d =>
           Page.setUsingRange true
             (Page.setRangeData (Some (Page.ofApi d))
                (Page.setRangeLoading true (Page.setRangeError None s)))
       | None =>
           Page.setRangeData None
             (Page.setUsingRange false
                (Page.setRangeError
                   (Some match answer with
                         | Normal (Some _) => "Range request failed."
                         | _ => "Could not load range data. Please try again."
                         end)
                   (Page.setRangeLoading true (Page.setRangeError None s))))
       end,
     [GetRange (Page.startDate s) (Page.endDate s)]).
Proof.
  intros Hvalid answer. unfold validRange in Hvalid. unfold Page.handleApplyRange.
  destruct (notString (Page.startDate s)); [discriminate|].
  destruct (notString (Page.endDate s)); [discriminate|].
  destruct (gtString (Page.startDate s) (Page.endDate s)); [discriminate|].
  cbn [orb]. unfold fetchRange, abind, issue, ofCompletion. cbn [app].
  fold answer. destruct answer as [[[[] d]|]|e]; reflexivity.
Qed.

(** After a click on "Apply range" whose request delivers a dataset,
    the custom range is active with that dataset. *)
Lemma applied_range_is_active net s d :
  validRange (Page.startDate s) (Page.endDate s) = true ->
  delivered (fetchJson (Network.range net (Page.startDate s) (Page.endDate s))) = Some d ->
  Page.activeRange (fst (Page.handleApplyRange net s)) = Some (Page.ofApi d) /\
  Page.topJobs (fst (Page.handleApplyRange net s)) = WeeklyData.topPerformers d.
Proof.
  intros Hvalid Hd. rewrite (apply_range_fetched net s Hvalid). cbn [fst].
  rewrite Hd. split; reflexivity.
Qed.

(** Clearing the range, or choosing a range card, leaves the custom range. *)
Lemma cleared_range_is_inactive s (r : TimeRange) :
  Page.activeRange (Page.handleClearRange s) = None /\
  Page.activeRange (Page.onSelectRange r s) = None.
Proof. split; reflexivity. Qed.

(** C9.  With a start or an end date missing, or with the start date
    after the end date in the order of strings, the click on "Apply
    range" sets a validation message and issues no request, leaving the
    custom-range slot and mode as they were; with both dates present
    and the start date not after the end date, exactly one range
    request is issued, for these two dates. *)
Theorem apply_range_validation net s :
  (Page.startDate s = "" \/ Page.endDate s = "" \/
   gtString (Page.startDate s) (Page.endDate s) = true ->
   snd (Page.handleApplyRange net s) = [] /\
   (exists msg, Page.rangeError (fst (Page.handleApplyRange net s)) = Some msg) /\
   Page.rangeData (fst (Page.handleApplyRange net s)) = Page.rangeData s /\
   Page.usingRange (fst (Page.handleApplyRange net s)) = Page.usingRange s) /\
  (Page.startDate s <> "" -> Page.endDate s <> "" ->
   gtString (Page.startDate s) (Page.endDate s) = false ->
   snd (Page.handleApplyRange net s) = [GetRange (Page.startDate s) (Page.endDate s)]).
Proof.
  split.
  - intros Hbad.
    assert (Hinvalid : validRange (Page.startDate s) (Page.endDate s) = false).
    { unfold validRange, notString.
      destruct Hbad as [-> | [-> | ->]]; simpl;
        repeat match goal with
               | |- context [String.eqb ?a ?b] => destruct (String.eqb a b); simpl
               end; reflexivity. }
    rewrite (apply_range_rejected net s Hinvalid). simpl. eauto.
  - intros Hstart Hend Horder.
    assert (Hvalid : validRange (Page.startDate s) (Page.endDate s) = true).
    { unfold validRange, notString.
      apply String.eqb_neq in Hstart, Hend. now rewrite Hstart, Hend, Horder. }
    now rewrite (apply_range_fetched net s Hvalid).
Qed.

End CustomRange.

Section CustomRangeExamples.

(** The dates 2025-12-10 and 2025-12-01 are refused without a request;
    the dates 2025-12-01 and 2025-12-10 lead to one request. *)
Lemma apply_range_validation_witness :
  snd (Page.handleApplyRange Sample.service Sample.outOfOrderPage) = [] /\
  (exists msg,
     Page.rangeError (fst (Page.handleApplyRange Sample.service Sample.outOfOrderPage)) =
     Some msg) /\
  snd (Page.handleApplyRange Sample.service Sample.readyPage) =
    [GetRange "2025-12-01" "2025-12-10"].
Proof.
  destruct (apply_range_validation Sample.service Sample.outOfOrderPage)
    as [Hbad _].
  destruct (Hbad (or_intror (or_intror eq_refl))) as [Hlog [Hmsg _]].
  destruct (apply_range_validation Sample.service Sample.readyPage) as [_ Hgood].
  split; [exact Hlog|].
  split; [exact Hmsg|].
  apply Hgood; [discriminate | discriminate | reflexivity].
Defined.

(** The message for dates out of order. *)
Example out_of_order_message :
  Page.rangeError (fst (Page.handleApplyRange Sample.service Sample.outOfOrderPage)) =
    Some "Start date cannot be after end date.".
Proof. reflexivity. Qed.

(** On a page with an active custom range, a range request that
    reports [success: false] empties the custom-range slot. *)
Lemma failed_range_fetch_clears_slot :
  Page.rangeData Sample.activePage = Some (Page.ofApi Sample.range42) /\
  delivered (fetchJson (Network.range Sample.refusing
                          (Page.startDate Sample.activePage)
                          (Page.endDate Sample.activePage))) = None /\
  Page.rangeData (fst (Page.handleApplyRange Sample.refusing Sample.activePage)) <>
    Page.rangeData Sample.activePage.
Proof. repeat split; try reflexivity. vm_compute. discriminate. Qed.

End CustomRangeExamples.

Section Slots.

Implicit Types (net : Network.t) (s : Page.State).

(** C10, amended.  The initial fetches leave a slot among summary,
    weekly and monthly as it was when its own fetch delivers nothing
    (it rejects, or its body is not JSON, is [null] or reports no
    success), leave the three slots as they were when any of the three
    fetches rejects or has a body that is not JSON, and never touch the
    custom-range slot.  The click on "Apply range" never touches the
    summary, weekly and monthly slots; it leaves the custom-range slot
    as it was when the dates do not pass validation, and it empties the
    custom-range slot and leaves the custom-range mode when the dates
    pass validation and the range request delivers nothing. *)
Theorem slots_after_failed_fetch (tz : Z -> bool -> Z) (clock : Z) net s :
  let params := Page.monthParams tz clock in
  let loaded := fst (Page.fetchAll tz clock net s) in
  let applied := fst (Page.handleApplyRange net s) in
  (rawDelivered (Network.summary net) = None -> Page.summary loaded = Page.summary s) /\
  (rawDelivered (Network.weekly net) = None -> Page.weekly loaded = Page.weekly s) /\
  (rawDelivered (Network.monthly net (fst params) (snd params)) = None ->
     Page.monthly loaded = Page.monthly s) /\
  (parses (Network.summary net) && parses (Network.weekly net) &&
     parses (Network.monthly net (fst params) (snd params)) = false ->
     Page.summary loaded = Page.summary s /\
     Page.weekly loaded = Page.weekly s /\
     Page.monthly loaded = Page.monthly s) /\
  Page.rangeData loaded = Page.rangeData s /\
  Page.summary applied = Page.summary s /\
  Page.weekly applied = Page.weekly s /\
  Page.monthly applied = Page.monthly s /\
  (validRange (Page.startDate s) (Page.endDate s) = false ->
     Page.rangeData applied = Page.rangeData s) /\
  (validRange (Page.startDate s) (Page.endDate s) = true ->
     delivered (fetchJson (Network.range net (Page.startDate s) (Page.endDate s))) = None ->
     Page.rangeData applied = None /\ Page.usingRange applied = false).
Proof.
  intros params loaded applied.
  assert (Hloaded :
    (rawDelivered (Network.summary net) = None -> Page.summary loaded = Page.summary s) /\
    (rawDelivered (Network.weekly net) = None -> Page.weekly loaded = Page.weekly s) /\
    (rawDelivered (Network.monthly net (fst params) (snd params)) = None ->
       Page.monthly loaded = Page.monthly s) /\
    (parses (Network.summary net) && parses (Network.weekly net) &&
       parses (Network.monthly net (fst params) (snd params)) = false ->
       Page.summary loaded = Page.summary s /\
       Page.weekly loaded = Page.weekly s /\
       Page.monthly loaded = Page.monthly s) /\
    Page.rangeData loaded = Page.rangeData s).
  { subst loaded. unfold Page.fetchAll. fold params.
    unfold Page.rawFetch, abind, issue, ofCompletion. cbn [fst snd app].
    destruct (Network.summary net) as [?|? ? [| |[[] ?]]],
             (Network.weekly net) as [?|? ? [| |[[] ?]]],
             (Network.monthly net (fst params) (snd params)) as [?|? ? [| |[[] ?]]];
      cbn; repeat split; intros; try reflexivity; discriminate. }
  assert (Happlied :
    Page.summary applied = Page.summary s /\
    Page.weekly applied = Page.weekly s /\
    Page.monthly applied = Page.monthly s /\
    (validRange (Page.startDate s) (Page.endDate s) = false ->
       Page.rangeData applied = Page.rangeData s) /\
    (validRange (Page.startDate s) (Page.endDate s) = true ->
       delivered (fetchJson (Network.range net (Page.startDate s) (Page.endDate s))) = None ->
       Page.rangeData applied = None /\ Page.usingRange applied = false)).
  { subst applied.
    destruct (validRange (Page.startDate s) (Page.endDate s)) eqn:Hvalid.
    - rewrite (apply_range_fetched net s Hvalid). cbn [fst].
      destruct (delivered _) eqn:Hd; repeat split; intros; try reflexivity;
        discriminate.
    - rewrite (apply_range_rejected net s Hvalid). cbn [fst].
      repeat split; intros; try reflexivity; discriminate. }
  tauto.
Qed.

(** Offline, the initial fetches leave the summary of the page as it
    was; a refused range request empties the custom-range slot. *)
Lemma slots_after_failed_fetch_witness :
  Page.summary (fst (Page.fetchAll Sample.utc Sample.dec8 Sample.offline Sample.todayPage)) =
    Page.summary Sample.todayPage /\
  Page.rangeData (fst (Page.handleApplyRange Sample.refusing Sample.activePage)) = None /\
  Page.rangeData (fst (Page.handleApplyRange Sample.refusing Sample.outOfOrderPage)) =
    Page.rangeData Sample.outOfOrderPage.
Proof.
  destruct (slots_after_failed_fetch Sample.utc Sample.dec8 Sample.offline
              Sample.todayPage) as [Hsummary _].
  destruct (slots_after_failed_fetch Sample.utc Sample.dec8 Sample.refusing
              Sample.activePage) as [_ [_ [_ [_ [_ [_ [_ [_ [_ Hcleared]]]]]]]]].
  destruct (slots_after_failed_fetch Sample.utc Sample.dec8 Sample.refusing
              Sample.outOfOrderPage) as [_ [_ [_ [_ [_ [_ [_ [_ [Hkept _]]]]]]]]].
  split; [exact (Hsummary eq_refl)|].
  split; [exact (proj1 (Hcleared eq_refl eq_refl))|].
  exact (Hkept eq_refl).
Defined.

End Slots.

(* ------------------------------------------------------------------ *)
(** * Sorting                                                           *)
(* ------------------------------------------------------------------ *)

Section SortFacts.

Context {A : Type} (compare : A -> A -> Z).

Local Abbreviation before := (precedes compare).

Lemma insertSorted_Permutation x (l : list A) :
  insertSorted compare x l ≡ₚ x :: l.
Proof.
  induction l as [|y l IH]; simpl; [reflexivity|].
  destruct (compare x y <=? 0); [reflexivity|].
  rewrite IH. apply perm_swap.
Qed.

Lemma sortBy_Permutation (l : list A) : sortBy compare l ≡ₚ l.
Proof.
  induction l as [|x l IH]; simpl; [reflexivity|].
  rewrite insertSorted_Permutation. now rewrite IH.
Qed.

Lemma sortBy_length (l : list A) : List.length (sortBy compare l) = List.length l.
Proof. apply Permutation_length, sortBy_Permutation. Qed.

Hypothesis compare_total : forall a b, before a b \/ before b a.
Hypothesis compare_trans : forall a b c, before a b -> before b c -> before a c.

Lemma insertSorted_sorted x (l : list A) :
  StronglySorted before l -> StronglySorted before (insertSorted compare x l).
Proof.
  induction l as [|y l IH]; simpl; intros Hsorted.
  - repeat constructor.
  - apply StronglySorted_inv in Hsorted as [Hl Hy].
    destruct (Z.leb_spec (compare x y) 0) as [Hxy|Hyx].
    + constructor; [now constructor|].
      constructor; [exact Hxy|].
      eapply Forall_impl; [exact Hy|]. intros z Hyz. now apply (compare_trans x y z).
    + constructor; [now apply IH|].
      rewrite insertSorted_Permutation. constructor; [|exact Hy].
      destruct (compare_total x y) as [Hle|Hle]; [unfold precedes in Hle; lia | exact Hle].
Qed.

Lemma sortBy_sorted (l : list A) : StronglySorted before (sortBy compare l).
Proof.
  induction l as [|x l IH]; simpl; [constructor | now apply insertSorted_sorted].
Qed.

(** In a sorted list every element of a prefix may stand before every
    element of the rest. *)
Lemma sorted_take_drop n (l : list A) :
  StronglySorted before l ->
  Forall (fun a => Forall (before a) (drop n l)) (take n l).
Proof.
  revert n. induction l as [|x l IH]; intros n Hsorted.
  - rewrite take_nil. constructor.
  - apply StronglySorted_inv in Hsorted as [Hl Hx].
    destruct n as [|n]; simpl; [constructor|].
    constructor; [|now apply IH].
    rewrite <- (take_drop n l) in Hx. now apply Forall_app in Hx as [_ Hx].
Qed.

Lemma sorted_take n (l : list A) :
  StronglySorted before l -> StronglySorted before (take n l).
Proof.
  revert n. induction l as [|x l IH]; intros n Hsorted.
  - rewrite take_nil. constructor.
  - apply StronglySorted_inv in Hsorted as [Hl Hx].
    destruct n as [|n]; simpl; constructor; [now apply IH|].
    rewrite <- (take_drop n l) in Hx. now apply Forall_app in Hx as [Hx _].
Qed.

End SortFacts.

(* ------------------------------------------------------------------ *)
(** * The charts                                                        *)
(* ------------------------------------------------------------------ *)

Section ChartFacts.

Lemma StronglySorted_map {A B} (f : A -> B) (R : A -> A -> Prop) (S : B -> B -> Prop)
    (l : list A) :
  (forall a b, R a b -> S (f a) (f b)) ->
  StronglySorted R l -> StronglySorted S (map f l).
Proof.
  intros HRS. induction 1 as [|a l Hl IH Ha]; simpl; constructor; [exact IH|].
  apply Forall_map. eapply Forall_impl; [exact Ha|]. intros b. apply HRS.
Qed.

Lemma byClicksDesc_total (a b : string * Z) :
  precedes Charts.byClicksDesc a b \/ precedes Charts.byClicksDesc b a.
Proof. unfold precedes, Charts.byClicksDesc. lia. Qed.

Lemma byClicksDesc_trans (a b c : string * Z) :
  precedes Charts.byClicksDesc a b -> precedes Charts.byClicksDesc b c ->
  precedes Charts.byClicksDesc a c.
Proof. unfold precedes, Charts.byClicksDesc. lia. Qed.

(** The [n] first entries in descending order of clicks: they are
    sorted, they come from the breakdown, and no entry left out has
    more clicks than one that is kept. *)
Lemma top_entries n (entries : list (string * Z)) :
  let kept := take n (sortBy Charts.byClicksDesc entries) in
  let rest := drop n (sortBy Charts.byClicksDesc entries) in
  List.length kept = Nat.min n (List.length entries) /\
  StronglySorted (fun a b => b.2 <= a.2) kept /\
  kept ++ rest ≡ₚ entries /\
  Forall (fun k => Forall (fun e => e.2 <= k.2) rest) kept.
Proof.
  intros kept rest.
  pose proof (sortBy_sorted Charts.byClicksDesc byClicksDesc_total byClicksDesc_trans
                entries) as Hsorted.
  repeat split.
  - subst kept. now rewrite length_take, sortBy_length.
  - apply (sorted_take _ n) in Hsorted.
    eapply (StronglySorted_map (fun e => e)) in Hsorted.
    + rewrite map_id in Hsorted. exact Hsorted.
    + unfold precedes, Charts.byClicksDesc. simpl. intros a b. lia.
  - subst kept rest. rewrite take_drop. apply sortBy_Permutation.
  - apply (sorted_take_drop _ n) in Hsorted.
    eapply Forall_impl; [exact Hsorted|]. intros k Hk.
    eapply Forall_impl; [exact Hk|].
    unfold precedes, Charts.byClicksDesc. intros e. lia.
Qed.

(** As long as there are no more cells than colours, the cells take
    the first colours of the palette, one each. *)
Lemma fills_offset {B} (palette : list string) (data : list B) (k : nat) :
  (k + List.length data <= List.length palette)%nat ->
  imap (fun idx _ => Charts.fill palette (k + idx)) data =
  map Some (take (List.length data) (drop k palette)).
Proof.
  revert k. induction data as [|x data IH]; intros k Hlen; simpl in *; [reflexivity|].
  destruct (drop k palette) as [|c rest] eqn:Hdrop.
  { apply (f_equal List.length) in Hdrop. rewrite length_drop in Hdrop.
    simpl in Hdrop. lia. }
  simpl. f_equal.
  - unfold Charts.fill. rewrite Nat.add_0_r, Nat.mod_small by lia.
    rewrite <- (Nat.add_0_r k), <- lookup_drop, Hdrop. reflexivity.
  - assert (Hrest : rest = drop (S k) palette).
    { change (S k) with (1 + k)%nat. rewrite Nat.add_comm, <- drop_drop, Hdrop.
      reflexivity. }
    rewrite Hrest, <- IH by lia.
    apply imap_ext. intros i y _. simpl. now rewrite Nat.add_succ_r.
Qed.

Lemma fills_distinct {B} (palette : list string) (data : list B) :
  NoDup palette ->
  (List.length data <= List.length palette)%nat ->
  Charts.fills palette data = map Some (take (List.length data) palette) /\
  NoDup (Charts.fills palette data).
Proof.
  intros Hnd Hlen.
  assert (Heq : Charts.fills palette data = map Some (take (List.length data) palette)).
  { exact (fills_offset palette data 0 Hlen). }
  split; [exact Heq|]. rewrite Heq.
  apply (NoDup_fmap_2 Some).
  eapply sublist_NoDup; [exact Hnd | apply sublist_take].
Qed.

End ChartFacts.

Section ChartProperties.

(** X1.  [LocationChart] shows as many bars as there are locations, up
    to ten, in descending order of clicks; the bars are entries of the
    breakdown, and no location left out has more clicks than one that
    is shown.  A missing breakdown gives no bar. *)
Theorem location_chart_top10 (entries : list (string * Z)) :
  Charts.locationData None = [] /\
  exists kept rest,
    Charts.locationData (Some entries) = map Charts.toBar kept /\
    List.length kept = Nat.min 10 (List.length entries) /\
    StronglySorted (fun a b => Charts.Bar.clicks b <= Charts.Bar.clicks a)
      (Charts.locationData (Some entries)) /\
    kept ++ rest ≡ₚ entries /\
    Forall (fun k => Forall (fun e => e.2 <= k.2) rest) kept.
Proof.
  split; [reflexivity|].
  destruct (top_entries 10 entries) as (Hlen & Hsorted & Hperm & Hrest).
  eexists _, _. repeat split; [exact Hlen| |exact Hperm|exact Hrest].
  unfold Charts.locationData, Charts.entriesOf. simpl default.
  eapply StronglySorted_map; [|exact Hsorted]. intros a b. exact id.
Qed.

(** X2.  [CategoryChart] shows up to fifteen roles in descending order
    of clicks, none left out having more clicks than one shown, and
    gives every slice a colour of its own: the first colours of the
    palette, in order. *)
Theorem category_chart_top15 (entries : list (string * Z)) :
  let data := Charts.categoryData (Some entries) in
  (exists kept rest,
     data = map Charts.toSlice kept /\
     List.length kept = Nat.min 15 (List.length entries) /\
     kept ++ rest ≡ₚ entries /\
     Forall (fun k => Forall (fun e => e.2 <= k.2) rest) kept) /\
  StronglySorted (fun a b => Charts.Slice.value b <= Charts.Slice.value a) data /\
  Charts.fills Charts.colors data = map Some (take (List.length data) Charts.colors) /\
  NoDup (Charts.fills Charts.colors data).
Proof.
  intros data.
  destruct (top_entries 15 entries) as (Hlen & Hsorted & Hperm & Hrest).
  split; [|split].
  - eexists _, _. repeat split; [exact Hlen|exact Hperm|exact Hrest].
  - subst data. unfold Charts.categoryData, Charts.entriesOf. simpl default.
    eapply StronglySorted_map; [|exact Hsorted]. intros a b. exact id.
  - apply fills_distinct.
    + unfold Charts.colors. compute_done.
    + subst data. unfold Charts.categoryData.
      rewrite length_map, length_take.
      change (List.length Charts.colors) with 15%nat. lia.
Qed.








End ChartProperties.

(* ------------------------------------------------------------------ *)
(** * The export to CSV                                                 *)
(* ------------------------------------------------------------------ *)

Section CsvFacts.

Import CsvReader.

Lemma string_app_nil_r (s : string) : s +:+ "" = s.
Proof.
  induction s as [|c s IH]; [reflexivity|]. rewrite string_app_cons. now f_equal.
Qed.

Lemma snoc_app cur c (v : string) : snoc cur c +:+ v = cur +:+ String c v.
Proof. unfold snoc. now rewrite string_app_assoc, string_app_cons. Qed.

Lemma hasChar_cons c x (v : string) :
  TopJobsTable.hasChar c (String x v) = false ->
  Ascii.eqb x c = false /\ TopJobsTable.hasChar c v = false.
Proof. simpl. now intros [? ?]%orb_false_iff. Qed.

(** Outside quotes the reader takes everything up to the next comma. *)
Lemma read_plain (v : string) cur rest :
  TopJobsTable.hasChar TopJobsTable.comma v = false ->
  readFields InPlain cur (v +:+ rest) = readFields InPlain (cur +:+ v) rest.
Proof.
  revert cur. induction v as [|c v IH]; intros cur Hclean.
  - now rewrite string_app_nil_r.
  - apply hasChar_cons in Hclean as [Hc Hv].
    rewrite string_app_cons. simpl. rewrite Hc, (IH _ Hv). now rewrite snoc_app.
Qed.

(** Inside quotes the reader undoes the doubling up to the closing quote. *)
Lemma read_quoted (v : string) cur rest :
  readFields InQuoted cur
    (TopJobsTable.doubleQuotes v +:+ String TopJobsTable.quote rest) =
  readFields AfterQuote (cur +:+ v) rest.
Proof.
  revert cur. induction v as [|c v IH]; intros cur.
  - rewrite string_app_nil_r. reflexivity.
  - simpl TopJobsTable.doubleQuotes.
    destruct (Ascii.eqb c TopJobsTable.quote) eqn:Hc.
    + apply Ascii.eqb_eq in Hc as ->.
      rewrite !string_app_cons. simpl. rewrite IH. now rewrite snoc_app.
    + rewrite string_app_cons. simpl. rewrite Hc, IH. now rewrite snoc_app.
Qed.

(** What the reader makes of an escaped field followed by [tail]. *)
Lemma read_escaped (v tail : string) :
  readFields AtStart "" (TopJobsTable.escapeField v +:+ tail) =
  readFields AfterQuote v tail \/
  readFields AtStart "" (TopJobsTable.escapeField v +:+ tail) =
  readFields InPlain v tail /\ v <> "" \/
  v = "" /\ TopJobsTable.escapeField v = "".
Proof.
  unfold TopJobsTable.escapeField.
  destruct (TopJobsTable.hasChar TopJobsTable.comma v) eqn:Hcomma.
  { left. simpl orb. cbv iota. rewrite string_app_cons, string_app_assoc,
      string_app_cons. simpl. now rewrite read_quoted. }
  destruct (TopJobsTable.hasChar TopJobsTable.quote v) eqn:Hquote.
  { left. simpl orb. cbv iota. rewrite string_app_cons, string_app_assoc,
      string_app_cons. simpl. now rewrite read_quoted. }
  destruct (TopJobsTable.hasChar TopJobsTable.newline v) eqn:Hnewline.
  { left. simpl orb. cbv iota. rewrite string_app_cons, string_app_assoc,
      string_app_cons. simpl. now rewrite read_quoted. }
  simpl orb. cbv iota. right.
  destruct v as [|c v]; [right; split; reflexivity|]. left. split; [|discriminate].
  apply hasChar_cons in Hcomma as [Hc1 Hv]. apply hasChar_cons in Hquote as [Hc2 _].
  rewrite string_app_cons. simpl. rewrite Hc1, Hc2.
  rewrite (read_plain v _ tail Hv). now rewrite snoc_app.
Qed.

Lemma read_last (v : string) : readLine (TopJobsTable.escapeField v) = [v].
Proof.
  unfold readLine.
  destruct (read_escaped v "") as [H | [[H _] | [-> H]]];
    rewrite ?string_app_nil_r in H; rewrite H; reflexivity.
Qed.

Lemma read_more (v rest : string) :
  readFields AtStart "" (TopJobsTable.escapeField v +:+ String TopJobsTable.comma rest) =
  v :: readFields AtStart "" rest.
Proof.
  destruct (read_escaped v (String TopJobsTable.comma rest)) as [H | [[H _] | [-> H]]].
  - rewrite H. reflexivity.
  - rewrite H. reflexivity.
  - rewrite H. reflexivity.
Qed.

(** A line of escaped fields reads back as the fields. *)
Lemma read_csvLine (cols : list string) :
  cols <> [] -> readLine (TopJobsTable.csvLine cols) = cols.
Proof.
  unfold TopJobsTable.csvLine, readLine.
  induction cols as [|v cols IH]; intros Hne; [contradiction|].
  destruct cols as [|w cols].
  - apply read_last.
  - change (join (String TopJobsTable.comma "") (map TopJobsTable.escapeField (v :: w :: cols)))
      with (TopJobsTable.escapeField v +:+ (String TopJobsTable.comma "" +:+
            join (String TopJobsTable.comma "") (map TopJobsTable.escapeField (w :: cols)))).
    rewrite string_app_cons. change ("" +:+ ?s) with s.
    rewrite read_more. f_equal. now apply IH.
Qed.

End CsvFacts.

Section CsvProperties.

(** X4.  The export to CSV downloads nothing for an empty list of jobs;
    a value without comma, quote or line break is written as it is; and
    two different rows of fields are never written as the same line: the
    quoting keeps the fields apart, whatever they contain. *)
Theorem csv_lines_keep_fields (cols cols' : list string) (v : string) :
  TopJobsTable.exportJobsToCSV [] = None /\
  (plainField v -> TopJobsTable.escapeField v = v) /\
  (cols <> [] -> cols' <> [] ->
   TopJobsTable.csvLine cols = TopJobsTable.csvLine cols' -> cols = cols').
Proof.
  split; [reflexivity|]. split.
  - intros (Hcomma & Hquote & Hnewline). unfold TopJobsTable.escapeField.
    now rewrite Hcomma, Hquote, Hnewline.
  - intros Hne Hne' Hline.
    rewrite <- (read_csvLine cols Hne), <- (read_csvLine cols' Hne').
    now rewrite Hline.
Qed.

Lemma csv_lines_keep_fields_witness :
  TopJobsTable.escapeField "Nurse" = "Nurse" /\
  (TopJobsTable.csvLine ["a,b"; "c"] = TopJobsTable.csvLine ["a,b"; "c"] ->
   ["a,b"; "c"] = ["a,b"; "c"]).
Proof.
  destruct (csv_lines_keep_fields ["a,b"; "c"] ["a,b"; "c"] "Nurse")
    as (_ & Hplain & Hinj).
  split.
  - apply Hplain. repeat split.
  - apply Hinj; discriminate.
Defined.

(** A title with a comma is written in quotes, and the line reads back
    as the five columns. *)
Example csv_line_of_driver :
  TopJobsTable.escapeField "Driver, night shift" =
    String TopJobsTable.quote
      ("Driver, night shift" +:+ String TopJobsTable.quote EmptyString) /\
  forall j, CsvReader.readLine (TopJobsTable.csvLine (TopJobsTable.columns j)) =
            TopJobsTable.columns j.
Proof.
  split; [reflexivity|]. intros j. apply read_csvLine. discriminate.
Qed.

End CsvProperties.

(* ------------------------------------------------------------------ *)
(** * The jobs table                                                    *)
(* ------------------------------------------------------------------ *)

Section JobsTable.

Variables (toLowerCase trim : string -> string).

Lemma ltb_leb (x y : string) : String.ltb x y = true -> String.leb x y = true.
Proof. unfold String.ltb, String.leb. now destruct (String.compare x y). Qed.

Lemma ltb_false_leb (x y : string) : String.ltb y x = false <-> String.leb x y = true.
Proof.
  unfold String.ltb, String.leb. rewrite (String.compare_antisym y x).
  destruct (String.compare x y); simpl; split; congruence.
Qed.

Lemma leb_trans (x y z : string) :
  String.leb x y = true -> String.leb y z = true -> String.leb x z = true.
Proof.
  intros Hxy%Is_true_true Hyz%Is_true_true. apply Is_true_true.
  exact (transitivity (R := String.le) Hxy Hyz).
Qed.

Lemma compareJobs_inOrder key direction (a b : TopPerformer.t) :
  precedes (TopJobsTable.compareJobs toLowerCase key direction) a b <->
  inOrder toLowerCase key direction a b.
Proof.
  unfold precedes, TopJobsTable.compareJobs, inOrder.
  destruct key, direction; cbv zeta.
  - destruct (Z.ltb_spec (TopPerformer.clicks a) (TopPerformer.clicks b)),
      (Z.ltb_spec (TopPerformer.clicks b) (TopPerformer.clicks a)); lia.
  - destruct (Z.ltb_spec (TopPerformer.clicks a) (TopPerformer.clicks b)),
      (Z.ltb_spec (TopPerformer.clicks b) (TopPerformer.clicks a)); lia.
  - destruct (String.ltb (toLowerCase (TopPerformer.location a)) _) eqn:Hlt.
    + apply ltb_leb in Hlt. split; [now intros _ | lia].
    + rewrite <- ltb_false_leb.
      destruct (String.ltb (toLowerCase (TopPerformer.location b)) _);
        split; (congruence || lia).
  - destruct (String.ltb (toLowerCase (TopPerformer.location a)) _) eqn:Hlt.
    + rewrite <- ltb_false_leb, Hlt. split; (congruence || lia).
    + apply ltb_false_leb in Hlt as Hle.
      destruct (String.ltb (toLowerCase (TopPerformer.location b)) _) eqn:Hgt;
        [split; [now intros _ | lia]|].
      apply ltb_false_leb in Hgt. split; [now intros _ | lia].
Qed.

Lemma inOrder_total key direction (a b : TopPerformer.t) :
  inOrder toLowerCase key direction a b \/ inOrder toLowerCase key direction b a.
Proof.
  unfold inOrder. destruct key, direction; try lia; apply String.leb_total.
Qed.

Lemma inOrder_trans key direction (a b c : TopPerformer.t) :
  inOrder toLowerCase key direction a b -> inOrder toLowerCase key direction b c ->
  inOrder toLowerCase key direction a c.
Proof.
  unfold inOrder. destruct key, direction; try lia; intros Hab Hbc.
  - exact (leb_trans _ _ _ Hab Hbc).
  - exact (leb_trans _ _ _ Hbc Hab).
Qed.

Lemma StronglySorted_weaken {A} (R S : A -> A -> Prop) (l : list A) :
  (forall a b, R a b -> S a b) -> StronglySorted R l -> StronglySorted S l.
Proof.
  intros HRS. induction 1 as [|a l Hl IH Ha]; constructor; [exact IH|].
  eapply Forall_impl; [exact Ha|]. intros b. apply HRS.
Qed.

Lemma filter_sublist {A} (f : A -> bool) (l : list A) : List.filter f l `sublist_of` l.
Proof.
  induction l as [|x l IH]; simpl; [constructor|].
  destruct (f x); now constructor.
Qed.

(** X5.  The rows of the jobs table are the jobs that pass the search,
    rearranged: they are a permutation of the filtered jobs, which are
    jobs of the list in their order (all of them when the search is
    blank), and they are in the order of the selected key and direction. *)
Theorem jobs_table_rows (st : TopJobsTable.State) (jobs : list TopPerformer.t) :
  let filtered := TopJobsTable.filteredJobs toLowerCase trim (TopJobsTable.search st) jobs in
  let shown := TopJobsTable.rows toLowerCase trim st jobs in
  shown ≡ₚ filtered /\
  filtered `sublist_of` jobs /\
  (trim (TopJobsTable.search st) = "" -> shown ≡ₚ jobs) /\
  StronglySorted
    (inOrder toLowerCase (TopJobsTable.sortKey st) (TopJobsTable.sortDirection st)) shown.
Proof.
  intros filtered shown. subst shown. unfold TopJobsTable.rows, TopJobsTable.sortedJobs.
  fold filtered. repeat split.
  - apply sortBy_Permutation.
  - subst filtered. unfold TopJobsTable.filteredJobs.
    destruct (String.eqb _ ""); [reflexivity | apply filter_sublist].
  - intros Hblank. rewrite sortBy_Permutation. subst filtered.
    unfold TopJobsTable.filteredJobs. now rewrite Hblank.
  - eapply (StronglySorted_weaken
              (precedes (TopJobsTable.compareJobs toLowerCase
                           (TopJobsTable.sortKey st) (TopJobsTable.sortDirection st)))).
    + intros a b. apply compareJobs_inOrder.
    + apply sortBy_sorted.
      * intros a b.
        destruct (inOrder_total (TopJobsTable.sortKey st) (TopJobsTable.sortDirection st) a b);
          [left | right]; now apply compareJobs_inOrder.
      * intros a b c Hab%compareJobs_inOrder Hbc%compareJobs_inOrder.
        apply compareJobs_inOrder. exact (inOrder_trans _ _ a b c Hab Hbc).
Qed.

End JobsTable.

Section JobsTableExamples.

Lemma jobs_table_rows_witness :
  TopJobsTable.rows Sample.asciiLower Sample.trimSpaces
    (TopJobsTable.mkState "  " TopJobsTable.clicks TopJobsTable.desc) Sample.jobs
  ≡ₚ Sample.jobs.
Proof.
  destruct (jobs_table_rows Sample.asciiLower Sample.trimSpaces
              (TopJobsTable.mkState "  " TopJobsTable.clicks TopJobsTable.desc)
              Sample.jobs) as (_ & _ & Hblank & _).
  apply Hblank. reflexivity.
Defined.

(** The search is by lower-cased title or location; the default order
    is by clicks, descending. *)
Example jobs_table_search :
  map TopPerformer.shortCode
    (TopJobsTable.rows Sample.asciiLower Sample.trimSpaces
       (TopJobsTable.mkState "LAGOS" TopJobsTable.clicks TopJobsTable.desc) Sample.jobs) =
    ["c1"; "n1"] /\
  map TopPerformer.shortCode
    (TopJobsTable.rows Sample.asciiLower Sample.trimSpaces TopJobsTable.initial Sample.jobs) =
    ["d1"; "c1"; "n1"].
Proof. split; vm_compute; reflexivity. Qed.

(** X6.  A click on a column header sorts by that column; on the column
    already selected it reverses the direction, so that two clicks
    restore the table; on the other column it starts with that
    column's own direction, descending for clicks and ascending for
    location.  The search is kept. *)
Theorem handle_sort_clicks (key : TopJobsTable.SortKey) (st : TopJobsTable.State) :
  TopJobsTable.sortKey (TopJobsTable.handleSort key st) = key /\
  TopJobsTable.search (TopJobsTable.handleSort key st) = TopJobsTable.search st /\
  (TopJobsTable.sortKey st = key ->
   TopJobsTable.sortDirection (TopJobsTable.handleSort key st) <>
     TopJobsTable.sortDirection st /\
   TopJobsTable.handleSort key (TopJobsTable.handleSort key st) = st) /\
  (TopJobsTable.sortKey st <> key ->
   TopJobsTable.sortDirection (TopJobsTable.handleSort key st) =
     match key with
     | TopJobsTable.clicks => TopJobsTable.desc
     | TopJobsTable.location => TopJobsTable.asc
     end).
Proof.
  destruct st as [search k d], key, k, d; simpl; repeat split;
    try reflexivity; try discriminate; try contradiction; intros; try congruence.
Qed.

Lemma handle_sort_clicks_witness :
  TopJobsTable.handleSort TopJobsTable.clicks
    (TopJobsTable.handleSort TopJobsTable.clicks TopJobsTable.initial) =
    TopJobsTable.initial /\
  TopJobsTable.sortDirection (TopJobsTable.handleSort TopJobsTable.location TopJobsTable.initial) =
    TopJobsTable.asc.
Proof.
  destruct (handle_sort_clicks TopJobsTable.clicks TopJobsTable.initial)
    as (_ & _ & Hsame & _).
  destruct (handle_sort_clicks TopJobsTable.location TopJobsTable.initial)
    as (_ & _ & _ & Hother).
  split; [exact (proj2 (Hsame eq_refl)) | apply Hother; discriminate].
Defined.

End JobsTableExamples.

(* ------------------------------------------------------------------ *)
(** * More on the resolver and the page                                 *)
(* ------------------------------------------------------------------ *)

Section ResolverTotality.

Implicit Types (h : Host.t) (range : TimeRange).

(** X7.  On a host whose clock and time zone are plausible, the
    resolver returns for every combination of present and absent
    datasets and every range: it never throws.  Both revisions. *)
Theorem resolver_never_throws h
    (weekly monthly : option WeeklyData.t) (summary : option SummaryData.t)
    (weeklyRes monthlyRes : option (Response.t WeeklyData.t))
    (summaryRes : option (Response.t SummaryData.t)) range :
  plausibleHost h ->
  (exists b, Api.getBreakdownsForRange h weekly monthly summary range = Normal b) /\
  (exists b,
     ApiV0.getBreakdownsForRange h weeklyRes monthlyRes summaryRes range = Normal b).
Proof.
  intros Hhost.
  assert (Hany : forall weekly monthly summary,
            exists b, Api.getBreakdownsForRange h weekly monthly summary range = Normal b).
  { clear weekly monthly summary. intros weekly monthly summary.
    destruct (targetDate_total h range Hhost) as [target Htarget].
    unfold Api.getBreakdownsForRange. rewrite Htarget.
    destruct range, weekly, monthly, summary; simpl;
      repeat match goal with
             | |- context [match ?o with Some _ => _ | None => _ end] =>
                 destruct o; simpl
             end; eauto. }
  split; [apply Hany|]. rewrite v0_getBreakdownsForRange. apply Hany.
Qed.

Lemma sample_host_plausible : plausibleHost Sample.host.
Proof.
  repeat split; simpl; try (intros; unfold Sample.utc); vm_compute; discriminate.
Defined.

Lemma resolver_never_throws_witness :
  exists b,
    Api.getBreakdownsForRange Sample.host (Some Sample.week) None None yesterday =
    Normal b.
Proof.
  exact (proj1 (resolver_never_throws Sample.host (Some Sample.week) None None
                  None None None yesterday sample_host_plausible)).
Defined.

(** X8.  The monthly data is used for [thisMonth] only: for the other
    ranges the result is the same with and without it; and [thisMonth]
    without monthly data shows the week, the breakdowns and the trend
    series being those of [thisWeek]. *)
Theorem monthly_only_for_month h
    (weekly monthly : option WeeklyData.t) (summary : option SummaryData.t) range :
  (range <> thisMonth ->
   Api.getBreakdownsForRange h weekly monthly summary range =
   Api.getBreakdownsForRange h weekly None summary range) /\
  Api.getBreakdownsForRange h weekly None None thisMonth =
  Api.getBreakdownsForRange h weekly None None thisWeek.
Proof.
  split; [|destruct weekly; reflexivity].
  intros Hrange. unfold Api.getBreakdownsForRange.
  destruct range, monthly; try reflexivity; contradiction.
Qed.

Lemma monthly_only_for_month_witness :
  Api.getBreakdownsForRange Sample.host (Some Sample.week) (Some Sample.month)
    (Some Sample.summary) thisWeek =
  Api.getBreakdownsForRange Sample.host (Some Sample.week) None
    (Some Sample.summary) thisWeek.
Proof.
  apply (proj1 (monthly_only_for_month Sample.host (Some Sample.week)
                  (Some Sample.month) (Some Sample.summary) thisWeek)).
  discriminate.
Defined.

End ResolverTotality.

Section PageAndResolver.

Implicit Types (h : Host.t) (w : WeeklyData.t) (range : TimeRange) (s : Page.State).

(** X9.  Without custom range and with the weekly data loaded (and the
    monthly data too when the range is [thisMonth]), the location and
    job-category breakdowns of the page are those returned by
    [getBreakdownsForRange] for the same data, range and dates; for
    [thisWeek] and [thisMonth] so is the trend series, once projected
    to date and total clicks. *)
Theorem page_breakdowns_agree h w (monthly : option WeeklyData.t)
    (summary : option SummaryData.t) range s (todayISO yesterdayISO : string) :
  Page.activeRange s = None ->
  Page.weekly s = Some (Page.ofApi w) ->
  Page.monthly s = option_map Page.ofApi monthly ->
  Page.summary s = summary ->
  Page.selectedRange s = range ->
  (range = thisMonth -> monthly <> None) ->
  targetDate h today = Normal todayISO ->
  targetDate h yesterday = Normal yesterdayISO ->
  exists b,
    Api.getBreakdownsForRange h (Some w) monthly summary range = Normal b /\
    Page.locationBreakdown s todayISO yesterdayISO = Breakdowns.locationBreakdown b /\
    Page.jobCategoryBreakdown s todayISO yesterdayISO = Breakdowns.jobTitleBreakdown b /\
    (range = thisWeek \/ range = thisMonth ->
     map toTrendPoint (Page.trendData s todayISO yesterdayISO) = Breakdowns.trendData b).
Proof.
  intros Hinactive Hweekly Hmonthly Hsummary Hrange Hmonth Htoday Hyesterday.
  unfold Page.locationBreakdown, Page.jobCategoryBreakdown, Page.breakdownFor,
    Page.trendData, Api.getBreakdownsForRange.
  rewrite Hinactive, Hweekly, Hmonthly, Hrange.
  destruct range; rewrite ?Htoday, ?Hyesterday; simpl.
  - change (find (Page.onDate todayISO) (WeeklyData.dailyBreakdown w))
      with (findDay todayISO (WeeklyData.dailyBreakdown w)).
    destruct monthly, summary, (findDay todayISO _); simpl; eexists;
      repeat split; intros [|]; discriminate.
  - change (find (Page.onDate yesterdayISO) (WeeklyData.dailyBreakdown w))
      with (findDay yesterdayISO (WeeklyData.dailyBreakdown w)).
    destruct monthly, summary, (findDay yesterdayISO _); simpl; eexists;
      repeat split; intros [|]; discriminate.
  - destruct monthly, summary as [sm|];
      [destruct (ThisWeek.topPerformers (SummaryData.thisWeek sm))| |
       destruct (ThisWeek.topPerformers (SummaryData.thisWeek sm))|];
      simpl; eexists; repeat split.
  - destruct monthly as [m|]; [|now contradiction Hmonth].
    destruct summary as [sm|];
      [destruct (ThisMonth.topPerformers (SummaryData.thisMonth sm))|];
      simpl; eexists; repeat split.
Qed.

Lemma page_breakdowns_agree_witness :
  exists b,
    Api.getBreakdownsForRange Sample.host (Some Sample.week) (Some Sample.month)
      (Some Sample.summary) today = Normal b /\
    Page.locationBreakdown Sample.todayPage "2025-12-08" "2025-12-07" =
      Breakdowns.locationBreakdown b.
Proof.
  destruct (page_breakdowns_agree Sample.host Sample.week (Some Sample.month)
              (Some Sample.summary) today Sample.todayPage "2025-12-08" "2025-12-07"
              eq_refl eq_refl eq_refl eq_refl eq_refl
              ltac:(discriminate) eq_refl eq_refl)
    as (b & Hb & Hloc & _).
  exists b. split; [exact Hb | exact Hloc].
Defined.

(** X10.  Without custom range, the click total of the page is the
    [clicks] of what [getSummaryForRange] returns for the same summary
    and range; and for [thisWeek] and [thisMonth], when the summary
    carries a [topPerformers] for the range, the top jobs of the page
    and the top performers of [getBreakdownsForRange] are both that
    list. *)
Theorem page_totals_agree h (weekly monthly : option WeeklyData.t)
    (sm : SummaryData.t) range s (tp : list TopPerformer.t) :
  Page.activeRange s = None ->
  Page.selectedRange s = range ->
  (forall summary, Page.summary s = summary ->
     Page.totalClicksForSelectedRange s = clicksOf (Api.getSummaryForRange summary range)) /\
  (Page.summary s = Some sm ->
   range = thisWeek /\ ThisWeek.topPerformers (SummaryData.thisWeek sm) = Some tp \/
   range = thisMonth /\ ThisMonth.topPerformers (SummaryData.thisMonth sm) = Some tp ->
   Page.topJobs s = tp /\
   topPerformersAre (Api.getBreakdownsForRange h weekly monthly (Some sm) range) tp).
Proof.
  intros Hinactive Hrange. split.
  - intros summary Hsummary. unfold Page.totalClicksForSelectedRange.
    rewrite Hinactive, Hsummary, Hrange. destruct summary, range; reflexivity.
  - intros Hsummary Hlist. unfold Page.topJobs, Api.getBreakdownsForRange.
    rewrite Hinactive, Hsummary, Hrange.
    destruct Hlist as [[-> Htp] | [-> Htp]]; rewrite Htp;
      destruct weekly, monthly; simpl; (split; [reflexivity|]);
      eexists; split; reflexivity.
Qed.

Lemma page_totals_agree_witness :
  Page.totalClicksForSelectedRange Sample.todayPage = 7 /\
  Page.topJobs (Page.setSelectedRange thisWeek Sample.todayPage) = [Sample.job "s" 99].
Proof.
  destruct (page_totals_agree Sample.host None None Sample.summary today
              Sample.todayPage [] eq_refl eq_refl) as [Htotal _].
  destruct (page_totals_agree Sample.host None None Sample.summary thisWeek
              (Page.setSelectedRange thisWeek Sample.todayPage) [Sample.job "s" 99]
              eq_refl eq_refl) as [_ Htop].
  split.
  - rewrite (Htotal _ eq_refl). reflexivity.
  - exact (proj1 (Htop eq_refl (or_introl (conj eq_refl eq_refl)))).
Defined.

(** For [today] the page keeps the top performers of the week, where
    [getBreakdownsForRange] shows those of the day. *)
Example page_top_jobs_of_today :
  Page.topJobs Sample.todayPage = [Sample.job "w" 10] /\
  topPerformersAre
    (Api.getBreakdownsForRange Sample.host (Some Sample.week) (Some Sample.month)
       (Some Sample.summary) today)
    [Sample.job "d" 7].
Proof.
  split; [reflexivity|]. eexists. split; [vm_compute; reflexivity | reflexivity].
Qed.

End PageAndResolver.

Section PageDates.

Import JSDate.

(** X11.  In a time zone with a constant offset and for years written
    on four digits, [todayISO] is the UTC day of the clock reading and
    [yesterdayISO] the day before it, both as YYYY-MM-DD; they are the
    target dates of the drill-down of [getBreakdownsForRange] for the
    same clock reading. *)
Theorem page_iso_dates (tz : Z -> bool -> Z) (off clock : Z) :
  fixedOffset tz off ->
  0 <= YearFromTime (clock - 1 * msPerDay) ->
  YearFromTime clock <= 9999 ->
  Page.todayISO tz clock = Normal (ymdOfDay (Day clock)) /\
  Page.yesterdayISO tz clock = Normal (ymdOfDay (Day clock - 1)) /\
  targetDate (Host.mk tz clock clock) today = Page.todayISO tz clock /\
  targetDate (Host.mk tz clock clock) yesterday = Page.yesterdayISO tz clock.
Proof.
  intros Hfixed Hlo Hhi.
  assert (Hyesterday : 0 <= YearFromTime (clock - 1 * msPerDay) <= 9999).
  { split; [exact Hlo|]. etransitivity; [|exact Hhi].
    apply YearFromTime_mono. unfold msPerDay. lia. }
  assert (Htoday : 0 <= YearFromTime clock <= 9999).
  { split; [|exact Hhi]. etransitivity; [exact Hlo|].
    apply YearFromTime_mono. unfold msPerDay. lia. }
  assert (Hiso : forall t, 0 <= YearFromTime t <= 9999 ->
            cbind (toISOString (Some t)) (fun s => Normal (slice_0_10 s)) =
            Normal (ymdOfDay (Day t))).
  { intros t Ht. exact (formatDate_four_digit t Ht). }
  repeat split.
  - unfold Page.todayISO, newDate. rewrite (four_digit_in_range _ Htoday).
    now apply Hiso.
  - unfold Page.yesterdayISO, newDate. rewrite (four_digit_in_range _ Htoday).
    rewrite (setDate_back_fixed tz off clock 1 Hfixed).
    rewrite (four_digit_in_range _ Hyesterday), (Hiso _ Hyesterday).
    now rewrite Day_shift.
Qed.

Lemma page_iso_dates_witness :
  Page.todayISO Sample.utc Sample.dec8 = Normal (ymdOfDay (Day Sample.dec8)) /\
  Page.yesterdayISO Sample.utc Sample.dec8 = Normal (ymdOfDay (Day Sample.dec8 - 1)).
Proof.
  destruct (page_iso_dates Sample.utc 0 Sample.dec8) as (Htoday & Hyesterday & _).
  - intros t isUTC. reflexivity.
  - vm_compute. discriminate.
  - vm_compute. discriminate.
  - split; [exact Htoday | exact Hyesterday].
Defined.

(** The two windows for the reference date 2025-12-08, in UTC. *)
Lemma week_ranges_fixed_offset_witness :
  ApiV0.getThisWeekAndLastWeekRanges Sample.utc (Some Sample.dec8) =
  Normal (ApiV0.WeekRanges.mk
            (ApiV0.DateRange.mk (ymdOfDay (Day Sample.dec8 - 6)) (ymdOfDay (Day Sample.dec8)))
            (ApiV0.DateRange.mk (ymdOfDay (Day Sample.dec8 - 13))
                                (ymdOfDay (Day Sample.dec8 - 7)))).
Proof.
  apply (week_ranges_fixed_offset Sample.utc 0 Sample.dec8).
  - intros t isUTC. reflexivity.
  - split; vm_compute; discriminate.
Defined.

End PageDates.

Section InitialFetch.

Implicit Types (net : Network.t) (s : Page.State).

(** X12.  The initial effect of the page always issues its three
    requests, in the same order, and always ends with [loading] off;
    it never touches the selected range nor the custom-range state;
    and when the three bodies parse, each of the summary, weekly and
    monthly slots takes the data of its own response if that reports
    success and keeps its value otherwise, independently of the others. *)
Theorem initial_fetch_outcome (tz : Z -> bool -> Z) (clock : Z) net s :
  let params := Page.monthParams tz clock in
  let loaded := fst (Page.fetchAll tz clock net s) in
  snd (Page.fetchAll tz clock net s) =
    [GetSummary; GetWeekly; GetMonthly (fst params) (snd params)] /\
  Page.loading loaded = false /\
  Page.selectedRange loaded = Page.selectedRange s /\
  Page.activeRange loaded = Page.activeRange s /\
  Page.rangeError loaded = Page.rangeError s /\
  (parses (Network.summary net) && parses (Network.weekly net) &&
     parses (Network.monthly net (fst params) (snd params)) = true ->
   Page.summary loaded =
     match rawDelivered (Network.summary net) with
     | Some d => Some d
     | None => Page.summary s
     end /\
   Page.weekly loaded =
     match rawDelivered (Network.weekly net) with
     | Some d => Some (Page.ofApi d)
     | None => Page.weekly s
     end /\
   Page.monthly loaded =
     match rawDelivered (Network.monthly net (fst params) (snd params)) with
     | Some d => Some (Page.ofApi d)
     | None => Page.monthly s
     end).
Proof.
  intros params loaded. subst loaded. unfold Page.fetchAll. fold params.
  unfold Page.rawFetch, abind, issue, ofCompletion. cbn [fst snd app].
  destruct (Network.summary net) as [?|? ? [| |[[] ?]]],
           (Network.weekly net) as [?|? ? [| |[[] ?]]],
           (Network.monthly net (fst params) (snd params)) as [?|? ? [| |[[] ?]]];
    cbn; repeat split; intros; try reflexivity; discriminate.
Qed.

Lemma initial_fetch_outcome_witness :
  Page.summary (fst (Page.fetchAll Sample.utc Sample.dec8 Sample.service Page.initial)) =
    Some Sample.summary /\
  Page.weekly (fst (Page.fetchAll Sample.utc Sample.dec8 Sample.service Page.initial)) =
    Some (Page.ofApi Sample.week).
Proof.
  destruct (initial_fetch_outcome Sample.utc Sample.dec8 Sample.service Page.initial)
    as (_ & _ & _ & _ & _ & Hslots).
  destruct (Hslots eq_refl) as (Hsummary & Hweekly & _).
  split; [exact Hsummary | exact Hweekly].
Defined.

(** X13.  The initial effect looks at the bodies of its three responses
    only: two services whose responses have the same bodies lead to the
    same page, whatever their [ok] flags and status codes.  In
    particular a response with status 500 whose body reports success
    fills its slot. *)
Theorem initial_fetch_ignores_status (tz : Z -> bool -> Z) (clock : Z)
    (net net' : Network.t) s :
  let params := Page.monthParams tz clock in
  bodyOf (Network.summary net) = bodyOf (Network.summary net') ->
  bodyOf (Network.weekly net) = bodyOf (Network.weekly net') ->
  bodyOf (Network.monthly net (fst params) (snd params)) =
    bodyOf (Network.monthly net' (fst params) (snd params)) ->
  Page.fetchAll tz clock net s = Page.fetchAll tz clock net' s.
Proof.
  intros params Hsummary Hweekly Hmonthly. unfold Page.fetchAll. fold params.
  unfold Page.rawFetch, abind, issue, ofCompletion. cbn [fst snd app].
  destruct (Network.summary net), (Network.summary net'); try discriminate;
    destruct (Network.weekly net), (Network.weekly net'); try discriminate;
    destruct (Network.monthly net _ _), (Network.monthly net' _ _); try discriminate;
    simpl in *; try reflexivity;
    repeat match goal with
           | H : Some _ = Some _ |- _ => injection H as ->
           end; reflexivity.
Qed.

Lemma initial_fetch_ignores_status_witness :
  Page.fetchAll Sample.utc Sample.dec8 Sample.failingStatus Page.initial =
  Page.fetchAll Sample.utc Sample.dec8 Sample.service Page.initial /\
  Page.summary
    (fst (Page.fetchAll Sample.utc Sample.dec8 Sample.failingStatus Page.initial)) =
    Some Sample.summary.
Proof.
  assert (Hsame := initial_fetch_ignores_status Sample.utc Sample.dec8
                     Sample.failingStatus Sample.service Page.initial
                     eq_refl eq_refl eq_refl).
  split; [exact Hsame|]. rewrite Hsame. vm_compute. reflexivity.
Defined.

(** X14.  After the initial effect on a fresh page, the body of the
    dashboard is rendered exactly when the three bodies parse and both
    the summary and the weekly response report success; the monthly
    response need not. *)
Theorem dashboard_after_initial_fetch (tz : Z -> bool -> Z) (clock : Z) net :
  let params := Page.monthParams tz clock in
  showsDashboard (fst (Page.fetchAll tz clock net Page.initial)) =
    parses (Network.summary net) && parses (Network.weekly net) &&
    parses (Network.monthly net (fst params) (snd params)) &&
    truthy (rawDelivered (Network.summary net)) &&
    truthy (rawDelivered (Network.weekly net)).
Proof.
  intros params. unfold Page.fetchAll. fold params.
  unfold Page.rawFetch, abind, issue, ofCompletion. cbn [fst snd app].
  destruct (Network.summary net) as [?|? ? [| |[[] ?]]],
           (Network.weekly net) as [?|? ? [| |[[] ?]]],
           (Network.monthly net (fst params) (snd params)) as [?|? ? [| |[[] ?]]];
    reflexivity.
Qed.

End InitialFetch.

Section ApplyAndClear.

Implicit Types (net : Network.t) (s : Page.State).

(** X15.  A click on "Apply range" with valid dates always ends with
    [rangeLoading] off.  When the request delivers a dataset the custom
    range becomes active with it and no error is shown; otherwise the
    custom range is left and an error is shown, which is "Range request
    failed." for a response that arrives with [success] unset and "Could
    not load range data. Please try again." for a rejected request, an
    error status, or a body that is not JSON or is [null]. *)
Theorem apply_range_outcome net s :
  validRange (Page.startDate s) (Page.endDate s) = true ->
  let answer := fetchJson (Network.range net (Page.startDate s) (Page.endDate s)) in
  let applied := fst (Page.handleApplyRange net s) in
  Page.rangeLoading applied = false /\
  (forall d, delivered answer = Some d ->
     Page.activeRange applied = Some (Page.ofApi d) /\ Page.rangeError applied = None) /\
  (delivered answer = None ->
     Page.activeRange applied = None /\
     Page.rangeError applied =
       Some match answer with
            | Normal (Some _) => "Range request failed."
            | _ => "Could not load range data. Please try again."
            end).
Proof.
  intros Hvalid answer applied. subst applied.
  rewrite (apply_range_fetched net s Hvalid). fold answer. cbn [fst].
  destruct (delivered answer) as [d|].
  - split; [reflexivity|]. split; [|discriminate].
    intros d' Hd'. injection Hd' as <-. split; reflexivity.
  - split; [reflexivity|]. split; [discriminate|].
    intros _. split; reflexivity.
Qed.

Lemma apply_range_outcome_witness :
  Page.activeRange (fst (Page.handleApplyRange Sample.service Sample.readyPage)) =
    Some (Page.ofApi Sample.range42) /\
  Page.rangeError (fst (Page.handleApplyRange Sample.refusing Sample.readyPage)) =
    Some "Range request failed." /\
  Page.rangeError (fst (Page.handleApplyRange Sample.failingStatus Sample.readyPage)) =
    Some "Could not load range data. Please try again.".
Proof.
  destruct (apply_range_outcome Sample.service Sample.readyPage eq_refl)
    as (_ & Hok & _).
  destruct (apply_range_outcome Sample.refusing Sample.readyPage eq_refl)
    as (_ & _ & Hrefused).
  destruct (apply_range_outcome Sample.failingStatus Sample.readyPage eq_refl)
    as (_ & _ & Hfailed).
  split; [exact (proj1 (Hok _ eq_refl))|].
  split; [exact (proj2 (Hrefused eq_refl)) | exact (proj2 (Hfailed eq_refl))].
Defined.

(** X16.  Whatever a click on "Apply range" did, clearing the range or
    choosing a range card afterwards shows what the page would show
    had the range never been applied; when no custom range was active
    before, clearing shows again what the page showed. *)
Theorem views_after_clear net s (r : TimeRange) (todayISO yesterdayISO : string) :
  let applied := fst (Page.handleApplyRange net s) in
  pageViews (Page.handleClearRange applied) todayISO yesterdayISO =
    pageViews (Page.handleClearRange s) todayISO yesterdayISO /\
  pageViews (Page.onSelectRange r applied) todayISO yesterdayISO =
    pageViews (Page.onSelectRange r s) todayISO yesterdayISO /\
  (Page.activeRange s = None ->
   pageViews (Page.handleClearRange applied) todayISO yesterdayISO =
     pageViews s todayISO yesterdayISO).
Proof.
  intros applied. subst applied.
  assert (Hviews : forall s1 s2,
            Page.activeRange s1 = Page.activeRange s2 ->
            Page.summary s1 = Page.summary s2 ->
            Page.weekly s1 = Page.weekly s2 ->
            Page.monthly s1 = Page.monthly s2 ->
            Page.selectedRange s1 = Page.selectedRange s2 ->
            pageViews s1 todayISO yesterdayISO = pageViews s2 todayISO yesterdayISO).
  { intros s1 s2 Ha Hs Hw Hm Hr.
    unfold pageViews, Page.totalClicksForSelectedRange, Page.trendData, Page.topJobs,
      Page.locationBreakdown, Page.jobCategoryBreakdown, Page.breakdownFor.
    now rewrite Ha, Hs, Hw, Hm, Hr. }
  destruct (validRange (Page.startDate s) (Page.endDate s)) eqn:Hvalid.
  - rewrite (apply_range_fetched net s Hvalid). cbn [fst].
    destruct (delivered _); repeat split; intros; apply Hviews;
      try reflexivity; unfold Page.activeRange in *; simpl;
      destruct (Page.usingRange s); congruence.
  - rewrite (apply_range_rejected net s Hvalid). cbn [fst].
    repeat split; intros; apply Hviews;
      try reflexivity; unfold Page.activeRange in *; simpl;
      destruct (Page.usingRange s); congruence.
Qed.

Lemma views_after_clear_witness :
  pageViews
    (Page.handleClearRange (fst (Page.handleApplyRange Sample.service Sample.readyPage)))
    "2025-12-08" "2025-12-07" =
  pageViews Sample.readyPage "2025-12-08" "2025-12-07".
Proof.
  destruct (views_after_clear Sample.service Sample.readyPage today
              "2025-12-08" "2025-12-07") as (_ & _ & Hback).
  exact (Hback eq_refl).
Defined.

End ApplyAndClear.

Section Revisions.

Import JSDate.

(** X18.  The two revisions of the resolver agree: the earlier one,
    given whole responses, returns what the later one returns for the
    data of the weekly and monthly responses that report success, a
    response without success counting as absent; the summary is used
    whatever its [success] flag says.  The same holds for the totals. *)
Theorem revisions_agree (h : Host.t)
    (weekly monthly : option (Response.t WeeklyData.t))
    (summary : option (Response.t SummaryData.t)) (range : TimeRange)
    (w : WeeklyData.t) (sm : SummaryData.t) (ok : bool) :
  ApiV0.getBreakdownsForRange h weekly monthly summary range =
    Api.getBreakdownsForRange h (ApiV0.has weekly) (ApiV0.has monthly)
      (option_map Response.data summary) range /\
  ApiV0.getSummaryForRange summary range =
    Api.getSummaryForRange (option_map Response.data summary) range /\
  ApiV0.getBreakdownsForRange h (Some (Response.mk false w)) monthly summary range =
    ApiV0.getBreakdownsForRange h None monthly summary range /\
  ApiV0.getBreakdownsForRange h weekly monthly (Some (Response.mk ok sm)) range =
    ApiV0.getBreakdownsForRange h weekly monthly (Some (Response.mk true sm)) range.
Proof.
  split; [apply v0_getBreakdownsForRange|].
  split; [apply v0_getSummaryForRange|].
  split; now rewrite !v0_getBreakdownsForRange.
Qed.

(** X19.  [formatDate] writes the UTC calendar day of a date as ten
    characters, YYYY-MM-DD, when the year has four digits, so that two
    instants of the same UTC day are written alike; it throws for the
    invalid date. *)
Theorem format_date_utc_day (t t' : Z) :
  (0 <= YearFromTime t <= 9999 ->
   ApiV0.formatDate (Some t) = Normal (ymd t) /\
   String.length (ymd t) = 10%nat /\
   (Day t = Day t' -> ApiV0.formatDate (Some t') = ApiV0.formatDate (Some t))) /\
  ApiV0.formatDate None = Throw (RangeError "Invalid time value").
Proof.
  split; [|reflexivity]. intros Hyear.
  split; [|split].
  - now rewrite formatDate_four_digit, ymd_by_day.
  - apply ymd_length.
  - intros Hday.
    assert (Hyear' : 0 <= YearFromTime t' <= 9999).
    { unfold YearFromTime in *. now rewrite <- Hday. }
    now rewrite !formatDate_four_digit, Hday.
Qed.

Lemma format_date_utc_day_witness :
  ApiV0.formatDate (Some Sample.nov6) = Normal "2025-11-06" /\
  ApiV0.formatDate (Some (Sample.nov6 + 1000)) = ApiV0.formatDate (Some Sample.nov6).
Proof.
  destruct (format_date_utc_day Sample.nov6 (Sample.nov6 + 1000)) as [Hfour _].
  assert (Hyear : 0 <= YearFromTime Sample.nov6 <= 9999)
    by (split; vm_compute; discriminate).
  destruct (Hfour Hyear) as (Hformat & _ & Hsame).
  split.
  - rewrite Hformat. vm_compute. reflexivity.
  - apply Hsame. vm_compute. reflexivity.
Defined.

End Revisions.
